(** * Podcastfy HTTP facade ([main.py]): configuration merge and the
    [/generate] request handler.

    The Python code is embedded shallowly.  Dictionaries are objects in a
    store and are shared by reference, as in Python: a value that is a
    dictionary is a location, [dict.copy] allocates a new object with the
    same entries, [dict.update] and item assignment change the object in
    place.  Code that can raise runs in a state-and-exception monad. *)

From stdpp Require Import gmap strings list fin_maps.
From Stdlib Require Import ZArith Ascii Strings.Byte DecimalString.

Open Scope Z_scope.
Open Scope string_scope.

(** ** Python values *)

(** Object identities of dictionaries. *)
Abbreviation loc := positive.

(** The values the handler sees: what a JSON body or a YAML document
    holds.  A [float] is kept as its IEEE-754 binary64 bit pattern; a
    dictionary is a reference into the store.  Lists are never updated by
    this program, so they are kept by value.  A [str] is the sequence of
    its code points, one character each; the model keeps the code points
    below 256. *)
#[warnings="-register-all"]
Inductive val : Type :=
| VNone
| VBool (b : bool)
| VInt (z : Z)
| VFloat (bits : Z)
| VStr (s : string)
| VList (items : list val)
| VDict (l : loc).

(** The entries of one dictionary object.  Keys are strings, as in a JSON
    object; Python compares dictionaries regardless of insertion order. *)
Abbreviation dict := (gmap string val).

(** The store of dictionary objects. *)
Abbreviation heap := (gmap loc dict).

(** Exceptions, all instances of Python's [Exception]: what an
    [except Exception] clause catches.  Errors outside that hierarchy
    ([KeyboardInterrupt], [SystemExit]) end the worker rather than the
    request and are not modelled.  The messages follow CPython's wording;
    no statement below depends on them. *)
Inductive exn : Type :=
| AttributeError (msg : string)
| TypeError (msg : string)
| ValueError (msg : string)
| OverflowError (msg : string)
| OtherError (cls : string) (msg : string)
| HTTPException (status_code : Z) (detail : string).

Inductive outcome (A : Type) : Type :=
| Ok (a : A)
| Raise (e : exn).
Arguments Ok {A} a.
Arguments Raise {A} e.

(** ** Store operations *)

Definition fresh_loc (h : heap) : loc := fresh (dom h).

(** The entries of the object at [l].  A location outside the store
    reads as empty; the statements below name the objects they need in
    the store. *)
Definition deref (h : heap) (l : loc) : dict := default ∅ (h !! l).

(** A dictionary display [{...}] or [dict.copy]: a new object. *)
Definition alloc (d : dict) (h : heap) : loc * heap :=
  let l := fresh_loc h in (l, <[l := d]> h).

Definition type_name (v : val) : string :=
  match v with
  | VNone => "NoneType"
  | VBool _ => "bool"
  | VInt _ => "int"
  | VFloat _ => "float"
  | VStr _ => "str"
  | VList _ => "list"
  | VDict _ => "dict"
  end.

Definition no_attribute (v : val) (attr : string) : exn :=
  AttributeError ("'" +:+ type_name v +:+ "' object has no attribute '" +:+ attr +:+ "'").

(** [x is not None] *)
Definition is_not_None (v : val) : bool :=
  match v with VNone => false | _ => true end.

(** The decimal numeral of a count, as [%zd] prints it. *)
Definition decimal (n : nat) : string := NilEmpty.string_of_uint (Nat.to_uint n).

Definition wrong_length (i n : nat) : exn :=
  ValueError ("dictionary update sequence element #" +:+ decimal i +:+ " has length "
              +:+ decimal n +:+ "; 2 is required").

(** Element number [i] of the iterable given to [dict.update]: it must
    be a sequence of length two, key first.  A string of two characters
    is such a sequence.  A key that is a list or a dictionary is not
    hashable.  Two shapes that Python accepts are outside this model and
    are reported as a [TypeError]: a pair whose key is hashable but not a
    string (dictionaries here have string keys), and an element that is
    itself a dictionary (it would be read as its keys in insertion order,
    which the store does not keep).  The handler always passes a
    dictionary to [update]. *)
Definition update_item (i : nat) (item : val) : outcome (string * val) :=
  match item with
  | VList [VStr k; v] => Ok (k, v)
  | VList [(VList _ | VDict _) as k; _] =>
      Raise (TypeError ("unhashable type: '" +:+ type_name k +:+ "'"))
  | VList [k; _] => Raise (TypeError ("unsupported key type: '" +:+ type_name k +:+ "'"))
  | VList items => Raise (wrong_length i (length items))
  | VStr (String c1 (String c2 EmptyString)) =>
      Ok (String c1 EmptyString, VStr (String c2 EmptyString))
  | VStr s => Raise (wrong_length i (String.length s))
  | VDict _ => Raise (TypeError "unsupported element type: 'dict'")
  | _ => Raise (TypeError ("cannot convert dictionary update sequence element #"
                           +:+ decimal i +:+ " to a sequence"))
  end.

(** The elements are stored one by one, counted from [i]; the entries
    stored before an offending element stay. *)
Fixpoint update_items (i : nat) (items : list val) (d : dict) : outcome unit * dict :=
  match items with
  | [] => (Ok (), d)
  | item :: rest =>
      match update_item i item with
      | Ok (k, v) => update_items (S i) rest (<[k := v]> d)
      | Raise e => (Raise e, d)
      end
  end.

(** Iterating over a string yields its characters. *)
Definition chars (s : string) : list val :=
  (λ c, VStr (String c EmptyString)) <$> String.list_ascii_of_string s.

(** [target.update(other)] where [target] is the dictionary at [t]: the
    entries of a mapping [other] replace those of the target key by key;
    any other iterable is read as a sequence of pairs. *)
Definition dict_update (t : loc) (other : val) (h : heap) : outcome unit * heap :=
  match other with
  | VDict o => (Ok (), <[t := deref h o ∪ deref h t]> h)
  | VList items =>
      let '(r, d) := update_items 0 items (deref h t) in (r, <[t := d]> h)
  | VStr s =>
      let '(r, d) := update_items 0 (chars s) (deref h t) in (r, <[t := d]> h)
  | v => (Raise (TypeError ("'" +:+ type_name v +:+ "' object is not iterable")), h)
  end.

(** ** [merge_configs] *)

Definition tts_key : string := "text_to_speech".

(** The body of the loop over [user_config.items()]. *)
Definition merge_step (key : string) (value : val) (merged : dict) : dict :=
  if decide (key ≠ tts_key) then
    if is_not_None value then <[key := value]> merged else merged
  else merged.

(** [merge_configs(base_config, user_config)]: both arguments are
    dictionary objects; the result is the new object [merged]. *)
Definition merge_configs (base_config user_config : loc) (h : heap)
  : outcome loc * heap :=
  (* merged = base_config.copy() *)
  let '(merged, h1) := alloc (deref h base_config) h in
  (* if 'text_to_speech' in merged and 'text_to_speech' in user_config: *)
  let r :=
    match deref h1 merged !! tts_key, deref h1 user_config !! tts_key with
    | Some target, Some _ =>
        (* merged['text_to_speech'].update(user_config.get('text_to_speech', {})) *)
        match target with
        | VDict t =>
            let '(empty, h2) := alloc ∅ h1 in
            let other := default (VDict empty) (deref h2 user_config !! tts_key) in
            dict_update t other h2
        | v => (Raise (no_attribute v "update"), h1)
        end
    | _, _ => (Ok (), h1)
    end in
  match r with
  | (Ok _, h3) =>
      (* for key, value in user_config.items(): ... merged[key] = value *)
      let m := map_fold merge_step (deref h3 merged) (deref h3 user_config) in
      (Ok merged, <[merged := m]> h3)
  | (Raise e, h3) => (Raise e, h3)
  end.

(** ** The process state and what [main.py] imports *)

(** What a request can observe and change: the store of dictionary
    objects, [os.environ], and the file system. *)
Record world (fs : Type) : Type := World {
  w_heap : heap;
  w_environ : gmap string string;
  w_files : fs;
}.
Arguments World {fs} _ _ _.
Arguments w_heap {fs} _.
Arguments w_environ {fs} _.
Arguments w_files {fs} _.

(** What [generate_podcast] hands back: a plain value ([str], [None], a
    number, ...), which has no [audio_path] attribute, or an instance
    given by its attributes. *)
Inductive gen_result : Type :=
| ResVal (v : val)
| ResObj (attrs : gmap string val).

(** The code this module calls but does not define: the file system
    behind [os.path.isfile] and [shutil.copy2], the YAML document behind
    [open] and [yaml.safe_load], [podcastfy.client.generate_podcast],
    the numeric conversions behind [float], and Starlette's [__str__] of
    [HTTPException]. *)
Record platform : Type := Platform {
  fs : Type;
  (* os.path.dirname(__file__) *)
  module_dir : string;
  isfile : string → fs → bool;
  (* shutil.copy2(src, dst) *)
  copy2 : val → string → fs → outcome unit * fs;
  (* open(config_path) and yaml.safe_load(file): the parsed document,
     its mappings newly stored *)
  safe_load_config : string → fs → heap → outcome val * heap;
  (* generate_podcast(urls=, conversation_config=, tts_model=, longform=) *)
  generate_podcast : val → val → val → bool → world fs → outcome gen_result * world fs;
  (* float(n) for an int: None when it is too large *)
  float_of_int : Z → option Z;
  (* float(s) for a str: None when it does not spell a number *)
  float_of_str : string → option Z;
  (* str(HTTPException(status_code, detail)) *)
  http_exception_str : Z → string → string;
}.

(** ** Builtins *)

(** Truth value of an object, as [if x:] and [bool(x)] take it. *)
Definition truthy (h : heap) (v : val) : bool :=
  match v with
  | VNone => false
  | VBool b => b
  | VInt z => negb (Z.eqb z 0)
  | VFloat bits => negb (Z.eqb bits 0 || Z.eqb bits 9223372036854775808) (* 0.0 and -0.0 *)
  | VStr s => negb (String.eqb s "")
  | VList items => match items with [] => false | _ => true end
  | VDict l => match map_to_list (deref h l) with [] => false | _ => true end
  end.

(** The float literals of the handler, as binary64 bit patterns. *)
Definition float_0_7 : Z := 4604480259023595110. (* 0x3FE6666666666666 *)
Definition float_1_0 : Z := 4607182418800017408. (* 0x3FF0000000000000 *)

Definition has_nul (s : string) : bool :=
  existsb (Ascii.eqb Ascii.zero) (String.list_ascii_of_string s).

(** [os.path.join(a, b)] (posixpath). *)
Fixpoint ends_with_sep (s : string) : bool :=
  match s with
  | EmptyString => false
  | String c EmptyString => Ascii.eqb c "/"%char
  | String _ rest => ends_with_sep rest
  end.

Definition os_path_join (a b : string) : string :=
  if String.prefix "/" b then b
  else if String.eqb a "" || ends_with_sep a then a +:+ b
  else a +:+ "/" +:+ b.

(** [bytes.hex()]: two lowercase hexadecimal digits per byte. *)
Definition hex_digit (n : N) : ascii :=
  nth (N.to_nat n) (String.list_ascii_of_string "0123456789abcdef") "0"%char.

Fixpoint hex (bs : list byte) : string :=
  match bs with
  | [] => ""
  | b :: rest =>
      String (hex_digit (Byte.to_N b / 16)) (String (hex_digit (Byte.to_N b mod 16)) (hex rest))
  end.

(** [str(e)]: the message of a built-in exception; Starlette's rendering
    for an [HTTPException]. *)
Definition str_exn (P : platform) (e : exn) : string :=
  match e with
  | AttributeError m | TypeError m | ValueError m | OverflowError m => m
  | OtherError _ m => m
  | HTTPException status_code detail => http_exception_str P status_code detail
  end.

(** [repr(s)] of a [str]: single quotes, unless the string holds a single
    quote and no double quote; the quote in use and the backslash are
    escaped, so are tab, newline and carriage return, and a character
    that [str.isprintable] rejects is written as a hexadecimal escape
    (below 256 these are the controls, 127 to 160, and 173). *)
Definition backslash : ascii := ascii_of_N 92.
Definition single_quote : ascii := ascii_of_N 39.
Definition double_quote : ascii := ascii_of_N 34.

Definition repr_quote (s : string) : ascii :=
  let cs := String.list_ascii_of_string s in
  if existsb (Ascii.eqb single_quote) cs && negb (existsb (Ascii.eqb double_quote) cs)
  then double_quote else single_quote.

Definition repr_char (quote c : ascii) : string :=
  let n := N_of_ascii c in
  if Ascii.eqb c quote || Ascii.eqb c backslash then String backslash (String c "")
  else if N.eqb n 9 then String backslash "t"
  else if N.eqb n 10 then String backslash "n"
  else if N.eqb n 13 then String backslash "r"
  else if N.ltb n 32 || (N.leb 127 n && N.leb n 160) || N.eqb n 173
  then String backslash (String "x" (String (hex_digit (n / 16)) (String (hex_digit (n mod 16)) "")))
  else String c "".

Definition py_repr (s : string) : string :=
  let quote := repr_quote s in
  String quote
    (String.concat "" (repr_char quote <$> String.list_ascii_of_string s)
     +:+ String quote "").

(** [float(x)] *)
Definition py_float (P : platform) (v : val) : outcome Z :=
  match v with
  | VFloat bits => Ok bits
  | VBool b => Ok (if b then float_1_0 else 0)
  | VInt z =>
      match float_of_int P z with
      | Some bits => Ok bits
      | None => Raise (OverflowError "int too large to convert to float")
      end
  | VStr s =>
      match float_of_str P s with
      | Some bits => Ok bits
      | None => Raise (ValueError ("could not convert string to float: " +:+ py_repr s))
      end
  | v => Raise (TypeError ("float() argument must be a string or a real number, not '"
                           +:+ type_name v +:+ "'"))
  end.

(** ** The state-and-exception monad of the handler *)

Definition M (P : platform) (A : Type) : Type :=
  world (fs P) → outcome A * world (fs P).

Definition ret {P : platform} {A : Type} (a : A) : M P A := λ w, (Ok a, w).

Definition raise {P : platform} {A : Type} (e : exn) : M P A := λ w, (Raise e, w).

Definition bind {P : platform} {A B : Type} (m : M P A) (k : A → M P B) : M P B :=
  λ w, match m w with
       | (Ok a, w') => k a w'
       | (Raise e, w') => (Raise e, w')
       end.

Notation "'do' x <- m ; k" := (bind m (λ x, k))
  (at level 10, x name, m at level 100, k at level 200, only parsing).

(** A computation that does not touch the state. *)
Definition lift {P : platform} {A : Type} (r : outcome A) : M P A := λ w, (r, w).

(** [bool(x)] *)
Definition py_bool {P : platform} (v : val) : M P bool :=
  λ w, (Ok (truthy (w_heap w) v), w).

(** An operation of the store alone. *)
Definition on_heap {P : platform} {A : Type} (f : heap → outcome A * heap) : M P A :=
  λ w, let '(r, h) := f (w_heap w) in (r, World h (w_environ w) (w_files w)).

(** The display [{}] and displays with entries. *)
Definition new_dict_ref {P : platform} (d : dict) : M P loc :=
  on_heap (λ h, let '(l, h') := alloc d h in (Ok l, h')).

Definition new_dict {P : platform} (d : dict) : M P val :=
  on_heap (λ h, let '(l, h') := alloc d h in (Ok (VDict l), h')).

(** [obj.get(key, default)]: the attribute is looked up first, then the
    arguments are evaluated, then the entry is read.  The dictionaries
    have string keys: any other hashable key is absent. *)
Definition py_get {P : platform} (obj key : val) (dflt : M P val) : M P val :=
  match obj with
  | VDict l =>
      do d <- dflt;
      match key with
      | VStr k => λ w, (Ok (default d (deref (w_heap w) l !! k)), w)
      | VList _ | VDict _ => raise (TypeError ("unhashable type: '" +:+ type_name key +:+ "'"))
      | _ => ret d
      end
  | v => raise (no_attribute v "get")
  end.

(** [data.get(key, default)] on the request body. *)
Definition data_get {P : platform} (data : dict) (key : string) (dflt : M P val) : M P val :=
  do d <- dflt; ret (default d (data !! key)).

(** ** [load_base_config] *)

Definition config_path : string := "podcastfy/conversation_config.yaml".

(** The parsed document, or a new empty dictionary when reading or
    parsing raises (the warning printed in that case is not modelled). *)
Definition load_base_config {P : platform} : M P val :=
  λ w, match safe_load_config P config_path (w_files w) (w_heap w) with
       | (Ok v, h) => (Ok v, World h (w_environ w) (w_files w))
       | (Raise _, h) => new_dict ∅ (World h (w_environ w) (w_files w))
       end.

(** ** [generate_podcast_endpoint] *)

(** [os.environ[var] = value] *)
Definition environ_setitem {P : platform} (var : string) (value : val) : M P unit :=
  λ w, match value with
       | VStr s =>
           if has_nul s then (Raise (ValueError "embedded null byte"), w)
           else (Ok (), World (w_heap w) (<[var := s]> (w_environ w)) (w_files w))
       | v => (Raise (TypeError ("str expected, not " +:+ type_name v)), w)
       end.

(** [key = data.get(field)] followed by [if key: os.environ[var] = key] *)
Definition set_credential {P : platform} (data : dict) (field var : string) : M P unit :=
  λ w, let key := default VNone (data !! field) in
       if truthy (w_heap w) key then environ_setitem var key w else (Ok (), w).

(** Lines 69-80. *)
Definition set_credentials {P : platform} (data : dict) : M P unit :=
  do _ <- set_credential data "openai_key" "OPENAI_API_KEY";
  do _ <- set_credential data "google_key" "GEMINI_API_KEY";
  set_credential data "elevenlabs_key" "ELEVENLABS_API_KEY".

(** Line 86. *)
Definition resolve_tts_model {P : platform} (data : dict) (base_config : val) : M P val :=
  data_get data "tts_model"
    (do tts <- py_get base_config (VStr tts_key) (new_dict ∅);
     py_get tts (VStr "default_tts_model") (ret (VStr "openai"))).

(** [data.get(field, base_config.get(key, default))] *)
Definition option_of {P : platform} (data : dict) (base_config : val)
    (field key : string) (dflt : val) : M P val :=
  data_get data field (py_get base_config (VStr key) (ret dflt)).

(** Lines 94-113: the display of [user_config], values in source order. *)
Definition build_user_config {P : platform} (data : dict)
    (base_config tts_model tts_base_config voices default_voices : val) : M P loc :=
  do c <- option_of data base_config "creativity" "creativity" (VFloat float_0_7);
  do creativity <- lift (py_float P c);
  do conversation_style <-
    option_of data base_config "conversation_style" "conversation_style" (VList []);
  do roles_person1 <- option_of data base_config "roles_person1" "roles_person1" VNone;
  do roles_person2 <- option_of data base_config "roles_person2" "roles_person2" VNone;
  do dialogue_structure <-
    option_of data base_config "dialogue_structure" "dialogue_structure" (VList []);
  do podcast_name <- option_of data base_config "name" "podcast_name" VNone;
  do podcast_tagline <- option_of data base_config "tagline" "podcast_tagline" VNone;
  do output_language <-
    option_of data base_config "output_language" "output_language" (VStr "English");
  do user_instructions <-
    option_of data base_config "user_instructions" "user_instructions" (VStr "");
  do engagement_techniques <-
    option_of data base_config "engagement_techniques" "engagement_techniques" (VList []);
  do model <- py_get tts_base_config (VStr "model") (ret VNone);
  do question <- py_get voices (VStr "question")
                   (py_get default_voices (VStr "question") (ret VNone));
  do answer <- py_get voices (VStr "answer")
                 (py_get default_voices (VStr "answer") (ret VNone));
  do dv <- new_dict {[ "question" := question; "answer" := answer ]};
  do tts <- new_dict {[ "default_tts_model" := tts_model; "model" := model;
                        "default_voices" := dv ]};
  new_dict_ref {[ "creativity" := VFloat creativity;
                  "conversation_style" := conversation_style;
                  "roles_person1" := roles_person1;
                  "roles_person2" := roles_person2;
                  "dialogue_structure" := dialogue_structure;
                  "podcast_name" := podcast_name;
                  "podcast_tagline" := podcast_tagline;
                  "output_language" := output_language;
                  "user_instructions" := user_instructions;
                  "engagement_techniques" := engagement_techniques;
                  tts_key := tts ]}.

(** The arguments of the call of the generator. *)
Record gen_args : Type := GenArgs {
  urls : val;
  conversation_config : val;
  tts_model : val;
  longform : bool;
}.

(** [merge_configs(base_config, user_config)] in the handler.  Here
    [base_config] has answered [get] before, so it is a dictionary; the
    other branch is never taken. *)
Definition call_merge_configs {P : platform} (base_config : val) (user_config : loc) : M P val :=
  match base_config with
  | VDict b =>
      on_heap (λ h, let '(r, h') := merge_configs b user_config h in
                    (match r with Ok m => Ok (VDict m) | Raise e => Raise e end, h'))
  | v => raise (no_attribute v "copy")
  end.

(** Lines 82-124 up to the call: base configuration, override, merge,
    and the arguments of [generate_podcast]. *)
Definition configure {P : platform} (data : dict) : M P gen_args :=
  do base_config <- load_base_config;
  do tts_model <- resolve_tts_model data base_config;
  do tts_base_config <-
    (do tts <- py_get base_config (VStr tts_key) (new_dict ∅);
     py_get tts tts_model (new_dict ∅));
  do voices <- data_get data "voices" (new_dict ∅);
  do default_voices <- py_get tts_base_config (VStr "default_voices") (new_dict ∅);
  do user_config <-
    build_user_config data base_config tts_model tts_base_config voices default_voices;
  do conversation_config <- call_merge_configs base_config user_config;
  do urls <- data_get data "urls" (ret (VList []));
  do is_long_form <- data_get data "is_long_form" (ret (VBool false));
  do longform <- py_bool is_long_form;
  ret (GenArgs urls conversation_config tts_model longform).

(** Everything before the call of the generator. *)
Definition prepare {P : platform} (data : dict) : M P gen_args :=
  do _ <- set_credentials data;
  configure data.

(** [TEMP_DIR], created when the module is loaded. *)
Definition TEMP_DIR (P : platform) : string := os_path_join (module_dir P) "temp_audio".

(** [f"podcast_{os.urandom(8).hex()}.mp3"], for the bytes [rnd] that
    [os.urandom] returns. *)
Definition podcast_filename (rnd : list byte) : string :=
  "podcast_" +:+ hex rnd +:+ ".mp3".

(** Lines 128-131 and 133-136: copy the audio file, answer with its URL. *)
Definition store_artifact {P : platform} (rnd : list byte) (src : val) : M P dict :=
  let filename := podcast_filename rnd in
  let output_path := os_path_join (TEMP_DIR P) filename in
  λ w, match copy2 P src output_path (w_files w) with
       | (Ok _, f) =>
           (Ok {[ "audioUrl" := VStr ("/audio/" +:+ filename) ]},
            World (w_heap w) (w_environ w) f)
       | (Raise e, f) => (Raise e, World (w_heap w) (w_environ w) f)
       end.

(** [isinstance(result, str) and os.path.isfile(result)] *)
Definition existing_path {P : platform} (result : gen_result) (w : world (fs P)) : option val :=
  match result with
  | ResVal (VStr s) => if isfile P s (w_files w) then Some (VStr s) else None
  | _ => None
  end.

(** [hasattr(result, 'audio_path') and result.audio_path] *)
Definition populated_audio_path {P : platform} (result : gen_result) (w : world (fs P))
  : option val :=
  match result with
  | ResVal _ => None
  | ResObj attrs =>
      match attrs !! "audio_path" with
      | Some src => if truthy (w_heap w) src then Some src else None
      | None => None
      end
  end.

Definition invalid_result : exn :=
  HTTPException 500 "Invalid result format or no audio generated".

(** Lines 126-138. *)
Definition handle_result {P : platform} (rnd : list byte) (result : gen_result) : M P dict :=
  λ w, match existing_path result w with
       | Some src => store_artifact rnd src w
       | None =>
           match populated_audio_path result w with
           | Some src => store_artifact rnd src w
           | None => (Raise invalid_result, w)
           end
       end.

(** The body of the [try] statement. *)
Definition generate_body {P : platform} (data : dict) (rnd : list byte) : M P dict :=
  do args <- prepare data;
  do result <- generate_podcast P (urls args) (conversation_config args)
                 (tts_model args) (longform args);
  handle_result rnd result.

(** [generate_podcast_endpoint(data)]: the body, with
    [except Exception as e: raise HTTPException(status_code=500, detail=str(e))].
    FastAPI answers a returned dictionary with status 200 and a raised
    [HTTPException] with its status code and detail. *)
Definition generate_podcast_endpoint {P : platform} (data : dict) (rnd : list byte) : M P dict :=
  λ w, match generate_body data rnd w with
       | (Ok body, w') => (Ok body, w')
       | (Raise e, w') => (Raise (HTTPException 500 (str_exn P e)), w')
       end.

(** ** Example stores and a small platform *)

Module Examples.

(** The sub-merge example: [base] at 1 and [override] at 2, their
    [text_to_speech] sub-maps {"a":1,"b":2} at 3 and {"b":9,"c":3} at 4. *)
Definition submerge_store : heap :=
  {[ 1%positive := {[ tts_key := VDict 3 ]};
     2%positive := {[ tts_key := VDict 4; "output_language" := VStr "French" ]};
     3%positive := {[ "a" := VInt 1; "b" := VInt 2 ]};
     4%positive := {[ "b" := VInt 9; "c" := VInt 3 ]} ]}.

(** An empty [base] at 1, as left by a failed load, and at 2 an override
    whose [text_to_speech] is the sub-map at 3. *)
Definition empty_base_store : heap :=
  {[ 1%positive := ∅;
     2%positive := {[ tts_key := VDict 3 ]};
     3%positive := {[ "default_tts_model" := VStr "openai" ]} ]}.

(** [base] at 1 with the sub-map {"model": "tts-1"} at 3; the override at
    2 has the sub-map {"model": None} at 4, the override at 5 has
    [text_to_speech] itself [None]. *)
Definition null_subkey_store : heap :=
  {[ 1%positive := {[ tts_key := VDict 3 ]};
     2%positive := {[ tts_key := VDict 4 ]};
     3%positive := {[ "model" := VStr "tts-1" ]};
     4%positive := {[ "model" := VNone ]};
     5%positive := {[ tts_key := VNone ]} ]}.

(** [base] at 1 and an empty override at 2. *)
Definition identity_store : heap :=
  {[ 1%positive := {[ tts_key := VDict 3; "creativity" := VInt 1 ]};
     2%positive := ∅;
     3%positive := {[ "default_tts_model" := VStr "elevenlabs" ]} ]}.

(** [base] at 1 with the sub-map {"model": "tts-1"} at 3; the override at
    2 names a language and has [text_to_speech] itself [None]. *)
Definition null_section_store : heap :=
  {[ 1%positive := {[ tts_key := VDict 3 ]};
     2%positive := {[ tts_key := VNone; "output_language" := VStr "French" ]};
     3%positive := {[ "model" := VStr "tts-1" ]} ]}.

(** [base] at 1 whose [text_to_speech] is a string; the override at 2
    names a language and has the sub-map at 3. *)
Definition scalar_section_store : heap :=
  {[ 1%positive := {[ tts_key := VStr "openai" ]};
     2%positive := {[ tts_key := VDict 3; "output_language" := VStr "French" ]};
     3%positive := {[ "model" := VStr "tts-1" ]} ]}.

(** [base] at 1 whose [text_to_speech] is the override object itself, at
    2; the sub-map of the override, at 3, names another language. *)
Definition shared_override_store : heap :=
  {[ 1%positive := {[ tts_key := VDict 2 ]};
     2%positive := {[ tts_key := VDict 3; "output_language" := VStr "French" ]};
     3%positive := {[ "output_language" := VStr "German" ]} ]}.


(** A file system of regular files by path, with [shutil.copy2] failing
    on a missing source. *)
Abbreviation files := (gmap string string).

Definition files_isfile (p : string) (f : files) : bool := bool_decide (is_Some (f !! p)).

Definition files_copy2 (src : val) (dst : string) (f : files) : outcome unit * files :=
  match src with
  | VStr s =>
      match f !! s with
      | Some content => (Ok (), <[dst := content]> f)
      | None => (Raise (OtherError "FileNotFoundError"
                          ("[Errno 2] No such file or directory: '" +:+ s +:+ "'")), f)
      end
  | v => (Raise (TypeError ("expected str, bytes or os.PathLike object, not "
                            +:+ type_name v)), f)
  end.

(** The configuration file is not parsed: when it exists, the document
    is the fixed one below, a base configuration with one engine. *)
Definition files_load (path : string) (f : files) (h : heap) : outcome val * heap :=
  match f !! path with
  | Some _ =>
      let '(voices, h) := alloc {[ "question" := VStr "echo"; "answer" := VStr "shimmer" ]} h in
      let '(engine, h) := alloc {[ "model" := VStr "tts-1-hd";
                                   "default_voices" := VDict voices ]} h in
      let '(tts, h) := alloc {[ "default_tts_model" := VStr "openai";
                                "openai" := VDict engine ]} h in
      let '(base, h) := alloc {[ "creativity" := VInt 1;
                                 "output_language" := VStr "English";
                                 tts_key := VDict tts ]} h in
      (Ok (VDict base), h)
  | None => (Raise (OtherError "FileNotFoundError"
                      ("[Errno 2] No such file or directory: '" +:+ path +:+ "'")), h)
  end.

(** A platform for a given generator. *)
Definition example_platform
    (gen : val → val → val → bool → world files → outcome gen_result * world files) : platform :=
  {| fs := files;
     module_dir := "/app";
     isfile := files_isfile;
     copy2 := files_copy2;
     safe_load_config := files_load;
     generate_podcast := gen;
     float_of_int := λ z, if Z.eqb z 0 then Some 0 else if Z.eqb z 1 then Some float_1_0 else None;
     float_of_str := λ s, if String.eqb s "0.7" then Some float_0_7 else None;
     http_exception_str := λ _ detail, "500: " +:+ detail |}.

(** Generators: one returns the path of a file it wrote, one an object
    whose [audio_path] names no file, one raises. *)
Definition gen_path : val → val → val → bool → world files → outcome gen_result * world files :=
  λ _ _ _ _ w, (Ok (ResVal (VStr "/tmp/out.mp3")),
                World (w_heap w) (w_environ w) (<["/tmp/out.mp3" := "ID3"]> (w_files w))).

Definition gen_missing : val → val → val → bool → world files → outcome gen_result * world files :=
  λ _ _ _ _ w, (Ok (ResObj {[ "audio_path" := VStr "/tmp/missing.mp3" ]}), w).


(** A process without a configuration file, and one with it. *)
Definition empty_world : world files := World ∅ ∅ ∅.

Definition configured_world : world files := World ∅ ∅ {[ config_path := "" ]}.

Definition request : dict :=
  {[ "urls" := VList [VStr "http://example.com"]; "openai_key" := VStr "sk-1" ]}.


(** A request that sends [null] for [tts_model]. *)
Definition null_tts_model_request : dict :=
  {[ "urls" := VList [VStr "http://example.com"]; "tts_model" := VNone ]}.

(** A request whose [creativity] is not a number. *)
Definition bad_creativity_request : dict :=
  {[ "urls" := VList [VStr "http://example.com"]; "creativity" := VStr "high" ]}.

Definition rnd8 : list byte := [x00; x01; x7f; x80; xab; xcd; xef; xff].

(** The configuration that a run of the preparation hands to the
    generator, with the store to read its sub-maps in; and the sub-map
    under a key. *)
Definition handed_config (run : outcome gen_args * world files) : option (dict * heap) :=
  match run with
  | (Ok args, w1) =>
      match conversation_config args with
      | VDict m => Some (deref (w_heap w1) m, w_heap w1)
      | _ => None
      end
  | (Raise _, _) => None
  end.

Definition sub_map (k : string) (c : dict * heap) : option (dict * heap) :=
  match c.1 !! k with
  | Some (VDict t) => Some (deref c.2 t, c.2)
  | _ => None
  end.

End Examples.

(** ** Statements about shapes *)

(** Where both configurations have a [text_to_speech] entry, both entries
    are sub-maps held in the store, and the sub-map of the base is not
    the override object itself. *)
Definition sub_maps (h : heap) (over : loc) (bd od : dict) : Prop :=
  ∀ b o, bd !! tts_key = Some b → od !! tts_key = Some o →
    ∃ bt ot, b = VDict bt ∧ o = VDict ot ∧
             is_Some (h !! bt) ∧ is_Some (h !! ot) ∧ bt ≠ over.

(** The resolution of [tts_model] as the specification orders it: the
    value under the request's [tts_model] key when the request has the
    key (whatever the value, [None] included), else the
    [default_tts_model] of the base [text_to_speech] section, else
    "openai". *)
Definition tts_model_spec (data base : dict) (h : heap) : val :=
  match data !! "tts_model" with
  | Some v => v
  | None =>
      match base !! tts_key with
      | Some (VDict t) => default (VStr "openai") (deref h t !! "default_tts_model")
      | _ => VStr "openai"
      end
  end.

(** The request fields of the three credentials and the environment
    variables they are stored in. *)
Definition providers : list (string * string) :=
  [ ("openai_key", "OPENAI_API_KEY");
    ("google_key", "GEMINI_API_KEY");
    ("elevenlabs_key", "ELEVENLABS_API_KEY") ].

Definition is_lower_hex (c : ascii) : bool :=
  existsb (Ascii.eqb c) (String.list_ascii_of_string "0123456789abcdef").

(** A computation that leaves [os.environ] as it is. *)
Definition keeps_environ {P : platform} {A : Type} (m : M P A) : Prop :=
  ∀ w, w_environ (m w).2 = w_environ w.

(** A computation after which every reference reads what it read
    before. *)
Definition keeps_store {P : platform} {A : Type} (m : M P A) : Prop :=
  ∀ w l, deref (w_heap (m w).2) l = deref (w_heap w) l.

(** A run that ended with an exception. *)
Definition raises {P : platform} {A : Type} (r : outcome A * world (fs P)) : Prop :=
  ∃ e w', r = (Raise e, w').

(** How a request ends once the source path [src] of the audio is
    chosen in state [w2]: with the URL of the copy when [shutil.copy2]
    goes through, with status 500 when it raises. *)
Definition ends_with_copy {P : platform} (data : dict) (rnd : list byte)
    (w : world (fs P)) (src : val) (w2 : world (fs P)) : Prop :=
  let filename := podcast_filename rnd in
  match copy2 P src (os_path_join (TEMP_DIR P) filename) (w_files w2) with
  | (Ok _, f) =>
      generate_podcast_endpoint data rnd w =
        (Ok {[ "audioUrl" := VStr ("/audio/" +:+ filename) ]},
         World (w_heap w2) (w_environ w2) f)
  | (Raise e, f) =>
      generate_podcast_endpoint data rnd w =
        (Raise (HTTPException 500 (str_exn P e)), World (w_heap w2) (w_environ w2) f)
  end.

(** ** Further statements *)

(** The entries [merge_configs] gives its result, in one expression: the
    entries of the override other than [text_to_speech] and other than
    [None], over those of the base. *)
Definition merge_entries (bd od : dict) : dict :=
  filter (λ kv : string * val, kv.1 ≠ tts_key ∧ is_not_None kv.2 = true) od ∪ bd.

(** The values that are not iterable: [dict.update] rejects them. *)
Definition not_iterable (v : val) : bool :=
  match v with
  | VNone | VBool _ | VInt _ | VFloat _ => true
  | VStr _ | VList _ | VDict _ => false
  end.

(** The request fields of the options of the handler, the keys they get
    in the configuration, and their literal defaults (lines 96-104). *)
Definition option_table : list (string * string * val) :=
  [ ("conversation_style", "conversation_style", VList []);
    ("roles_person1", "roles_person1", VNone);
    ("roles_person2", "roles_person2", VNone);
    ("dialogue_structure", "dialogue_structure", VList []);
    ("name", "podcast_name", VNone);
    ("tagline", "podcast_tagline", VNone);
    ("output_language", "output_language", VStr "English");
    ("user_instructions", "user_instructions", VStr "");
    ("engagement_techniques", "engagement_techniques", VList []) ].

(** [data.get(field, base_config.get(key, default))] as a value. *)
Definition requested (data bd : dict) (field key : string) (dflt : val) : val :=
  default (default dflt (bd !! key)) (data !! field).

(** What the merged configuration holds under [key]: the requested value
    unless it is [None], in which case the entry of the base, if any. *)
Definition effective_option (data bd : dict) (field key : string) (dflt : val)
  : option val :=
  if is_not_None (requested data bd field key dflt)
  then Some (requested data bd field key dflt)
  else bd !! key.

(** The entries of [user_config] (lines 94-113) for the converted
    creativity [bits] and the [text_to_speech] override [tts]. *)
Definition override_entries (data bd : dict) (bits : Z) (tts : val) : dict :=
  {[ "creativity" := VFloat bits;
     "conversation_style" := requested data bd "conversation_style" "conversation_style" (VList []);
     "roles_person1" := requested data bd "roles_person1" "roles_person1" VNone;
     "roles_person2" := requested data bd "roles_person2" "roles_person2" VNone;
     "dialogue_structure" := requested data bd "dialogue_structure" "dialogue_structure" (VList []);
     "podcast_name" := requested data bd "name" "podcast_name" VNone;
     "podcast_tagline" := requested data bd "tagline" "podcast_tagline" VNone;
     "output_language" := requested data bd "output_language" "output_language" (VStr "English");
     "user_instructions" := requested data bd "user_instructions" "user_instructions" (VStr "");
     "engagement_techniques" := requested data bd "engagement_techniques" "engagement_techniques" (VList []);
     tts_key := tts ]}.

(** The entries of the dictionary that a value refers to; none for a
    value that is not in the mapping. *)
Definition entries_at (h : heap) (v : option val) : dict :=
  match v with
  | Some (VDict l) => deref h l
  | _ => ∅
  end.

(** The settings of the engine [tts_model] in the [text_to_speech]
    section [ttsd] of the base (line 87), and the voice of a role (lines
    90-91 and 109-110): the request's voice, else the engine's default
    voice, else [None]. *)
Definition engine_settings (h : heap) (ttsd : dict) (tts_model : val) : dict :=
  match tts_model with
  | VStr name => entries_at h (ttsd !! name)
  | _ => ∅
  end.

Definition voice_spec (h : heap) (data ttsd : dict) (tts_model : val) (role : string)
  : val :=
  default
    (default VNone
       (entries_at h (engine_settings h ttsd tts_model !! "default_voices") !! role))
    (entries_at h (data !! "voices") !! role).

(** ** [serve_audio] *)

(** [FileResponse(path, media_type=, filename=)] *)
Inductive file_response : Type :=
| FileResponse (path media_type filename : string).

(** [serve_audio(filename)], for the file system's [os.path.exists]. *)
Definition serve_audio {P : platform} (path_exists : string → fs P → bool)
    (filename : string) : M P file_response :=
  let file_path := os_path_join (TEMP_DIR P) filename in
  λ w, if negb (path_exists file_path (w_files w))
       then (Raise (HTTPException 404 "File not found"), w)
       else (Ok (FileResponse file_path "audio/mpeg" filename), w).

(** Reading a byte back from its two hexadecimal digits. *)
Definition unhex_digit (c : ascii) : option N :=
  (λ i, N.of_nat i.1)
    <$> list_find (λ x, x = c) (String.list_ascii_of_string "0123456789abcdef").

Definition unhex_byte (c1 c2 : ascii) : option byte :=
  match unhex_digit c1, unhex_digit c2 with
  | Some hi, Some lo => Byte.of_N (hi * 16 + lo)
  | _, _ => None
  end.

(** A run that gave a result. *)
Definition is_ok {A B : Type} (r : outcome A * B) : bool :=
  match r with
  | (Ok _, _) => true
  | (Raise _, _) => false
  end.

(** Further example data. *)
Module MoreExamples.

(** A base at 1 whose [text_to_speech] is a string; the override at 2
    has a sub-map at 3. *)
Definition scalar_tts_store : heap :=
  {[ 1%positive := {[ tts_key := VStr "openai" ]};
     2%positive := {[ tts_key := VDict 3 ]};
     3%positive := {[ "model" := VStr "tts-1" ]} ]}.

(** A platform whose configuration file holds an empty document:
    [yaml.safe_load] gives [None]. *)
Definition empty_document_platform : platform :=
  {| fs := Examples.files;
     module_dir := "/app";
     isfile := Examples.files_isfile;
     copy2 := Examples.files_copy2;
     safe_load_config := λ _ _ h, (Ok VNone, h);
     generate_podcast := Examples.gen_path;
     float_of_int := λ _, None;
     float_of_str := λ _, None;
     http_exception_str := λ _ detail, "500: " +:+ detail |}.

(** Requests: a numeric credential; a good credential with a creativity
    that is not a number; voices. *)
Definition numeric_key_request : dict := {[ "openai_key" := VInt 12345 ]}.

Definition key_and_bad_creativity_request : dict :=
  {[ "elevenlabs_key" := VStr "el-1"; "creativity" := VStr "high" ]}.

(** The base configuration that [Examples.files_load] gives, at 4 in the
    store, and its [text_to_speech] section, at 3. *)
Definition loaded_base : dict :=
  {[ "creativity" := VInt 1; "output_language" := VStr "English"; tts_key := VDict 3 ]}.

Definition loaded_text_to_speech : dict :=
  {[ "default_tts_model" := VStr "openai"; "openai" := VDict 2 ]}.

(** [base] at 1 with a creativity, a name and the sub-map at 3; the
    override at 2 has [None] for the creativity, no name, a language
    and the sub-map at 4. *)
Definition null_option_store : heap :=
  {[ 1%positive := {[ tts_key := VDict 3; "creativity" := VInt 1;
                      "podcast_name" := VStr "Daily" ]};
     2%positive := {[ tts_key := VDict 4; "creativity" := VNone;
                      "output_language" := VStr "French" ]};
     3%positive := {[ "model" := VStr "tts-1" ]};
     4%positive := {[ "model" := VStr "tts-1-hd" ]} ]}.

(** A world with a file outside the artifact directory. *)
Definition passwd_world : world Examples.files :=
  World ∅ ∅ {[ "/etc/passwd" := "root:x:0:0" ]}.

Definition language_request : dict :=
  {[ "output_language" := VStr "French"; "tagline" := VNone ]}.

End MoreExamples.

(** * Properties of [merge_configs] *)

(** A closed statement about a run on a concrete store: split it and
    evaluate each part. *)
Ltac by_evaluation := cbv zeta; repeat apply conj; vm_compute; reflexivity.

Section Store.
Implicit Types (h : heap) (l : loc) (d : dict).

Lemma fresh_loc_None h : h !! fresh_loc h = None.
Proof. apply (not_elem_of_dom (D:=gset loc)). unfold fresh_loc. apply is_fresh. Qed.

Lemma fresh_loc_ne h l : is_Some (h !! l) → l ≠ fresh_loc h.
Proof. intros [d Hd] ->. rewrite fresh_loc_None in Hd. discriminate. Qed.

Lemma deref_Some h l d : h !! l = Some d → deref h l = d.
Proof. unfold deref. by intros ->. Qed.

Lemma deref_insert_eq h l d : deref (<[l := d]> h) l = d.
Proof. unfold deref. by rewrite lookup_insert_eq. Qed.

Lemma deref_insert_ne h l l' d : l ≠ l' → deref (<[l := d]> h) l' = deref h l'.
Proof. unfold deref. intros. by rewrite lookup_insert_ne. Qed.

(** A new empty dictionary changes what no reference reads. *)
Lemma deref_alloc_empty h l : deref (<[fresh_loc h := ∅]> h) l = deref h l.
Proof.
  destruct (decide (fresh_loc h = l)) as [<-|Hne].
  - rewrite deref_insert_eq. unfold deref. by rewrite fresh_loc_None.
  - by apply deref_insert_ne.
Qed.

End Store.

(** The loop over the entries of the override: an entry other than
    [text_to_speech] with a value other than [None] is assigned, every
    other key keeps what [merged] had. *)
Lemma merge_loop_lookup (m0 u : dict) (k : string) :
  map_fold merge_step m0 u !! k =
    match u !! k with
    | Some v => if decide (k ≠ tts_key) then
                  if is_not_None v then Some v else m0 !! k
                else m0 !! k
    | None => m0 !! k
    end.
Proof.
  revert k.
  apply (map_fold_weak_ind (λ (r : dict) (m : dict), ∀ k, r !! k =
    match m !! k with
    | Some v => if decide (k ≠ tts_key) then
                  if is_not_None v then Some v else m0 !! k
                else m0 !! k
    | None => m0 !! k
    end)).
  - intros k. by rewrite lookup_empty.
  - intros i x m r Hi IH k. unfold merge_step.
    destruct (decide (i = k)) as [->|Hik].
    + rewrite lookup_insert_eq. specialize (IH k). rewrite Hi in IH.
      destruct (decide (k ≠ tts_key)); [|done].
      destruct (is_not_None x); [by rewrite lookup_insert_eq | done].
    + rewrite (lookup_insert_ne m) by done. rewrite <- IH.
      destruct (decide (i ≠ tts_key)); [|done].
      destruct (is_not_None x); [by rewrite lookup_insert_ne | done].
Qed.

Lemma merge_loop_empty (m0 : dict) : map_fold merge_step m0 ∅ = m0.
Proof. apply map_fold_empty. Qed.

(** Without a [text_to_speech] entry on both sides only the loop runs. *)
Lemma merge_configs_no_clash (h : heap) (base over : loc) (bd od : dict) :
  h !! base = Some bd → h !! over = Some od →
  bd !! tts_key = None ∨ od !! tts_key = None →
  merge_configs base over h =
    (Ok (fresh_loc h), <[fresh_loc h := map_fold merge_step bd od]> h).
Proof.
  intros Hb Ho Hno. unfold merge_configs, alloc.
  rewrite (deref_Some _ _ _ Hb), deref_insert_eq.
  rewrite deref_insert_ne by (symmetry; apply fresh_loc_ne; eauto).
  rewrite (deref_Some _ _ _ Ho).
  assert (∀ d : dict, <[fresh_loc h := d]> (<[fresh_loc h := bd]> h) = <[fresh_loc h := d]> h)
    as Hins by (intros; apply insert_insert_eq).
  destruct Hno as [Hn | Hn]; rewrite Hn.
  - rewrite deref_insert_eq, deref_insert_ne by (symmetry; apply fresh_loc_ne; eauto).
    by rewrite (deref_Some _ _ _ Ho), Hins.
  - destruct (bd !! tts_key);
      rewrite deref_insert_eq, deref_insert_ne by (symmetry; apply fresh_loc_ne; eauto);
      by rewrite (deref_Some _ _ _ Ho), Hins.
Qed.

(** With a sub-map on both sides, the sub-map object of the base is
    updated in place before the loop runs. *)
Lemma merge_configs_sub_maps (h : heap) (base over bt ot : loc) (bd od btd otd : dict) :
  h !! base = Some bd → h !! over = Some od →
  bd !! tts_key = Some (VDict bt) → od !! tts_key = Some (VDict ot) →
  h !! bt = Some btd → h !! ot = Some otd → bt ≠ over →
  ∃ h', merge_configs base over h = (Ok (fresh_loc h), h') ∧
        h' !! fresh_loc h = Some (map_fold merge_step bd od) ∧
        h' !! bt = Some (otd ∪ btd) ∧
        ∀ l d, h !! l = Some d → l ≠ bt → h' !! l = Some d.
Proof.
  intros Hb Ho Hbt Hot Hbts Hots Hne. unfold merge_configs, alloc.
  cbv beta iota zeta. rewrite (deref_Some _ _ _ Hb).
  set (m := fresh_loc h). set (h1 := <[m := bd]> h).
  set (e := fresh_loc h1). set (h2 := <[e := ∅]> h1).
  assert (∀ l d, h !! l = Some d → h1 !! l = Some d) as H1.
  { intros l d Hl. unfold h1. rewrite lookup_insert_ne; [done|].
    apply not_eq_sym, fresh_loc_ne. eauto. }
  assert (∀ l d, h1 !! l = Some d → h2 !! l = Some d) as H2.
  { intros l d Hl. unfold h2. rewrite lookup_insert_ne; [done|].
    apply not_eq_sym, fresh_loc_ne. eauto. }
  assert (h1 !! m = Some bd) as Hm1 by apply lookup_insert_eq.
  rewrite (deref_Some _ _ _ Hm1), (deref_Some h1 over od) by eauto.
  rewrite Hbt, Hot.
  rewrite (deref_Some h2 over od) by eauto. rewrite Hot.
  cbn [from_option id]. unfold dict_update. cbv beta iota.
  rewrite (deref_Some h2 ot otd), (deref_Some h2 bt btd) by eauto.
  set (h3 := <[bt := otd ∪ btd]> h2).
  assert (bt ≠ m) as Hbm by (apply fresh_loc_ne; eauto).
  assert (h3 !! m = Some bd) as Hm3.
  { unfold h3. rewrite lookup_insert_ne by done. eauto. }
  assert (h3 !! over = Some od) as Ho3.
  { unfold h3. rewrite lookup_insert_ne by done. eauto. }
  rewrite (deref_Some _ _ _ Hm3), (deref_Some _ _ _ Ho3).
  eexists. split; [reflexivity|]. split; [|split].
  - apply lookup_insert_eq.
  - rewrite lookup_insert_ne by done. apply lookup_insert_eq.
  - intros l d Hl Hlb.
    rewrite lookup_insert_ne by (apply not_eq_sym, fresh_loc_ne; eauto).
    unfold h3. rewrite lookup_insert_ne by done. eauto.
Qed.

(** The entries of the result and the objects left as they were, for
    configurations of the expected shape: the result is a new object
    holding what the loop computes from the entries of the base and of
    the override, and every object of the store other than the
    [text_to_speech] sub-map of the base is unchanged. *)
Lemma merge_configs_entries (h : heap) (base over : loc) (bd od : dict) :
  h !! base = Some bd → h !! over = Some od → sub_maps h over bd od →
  ∃ m h', merge_configs base over h = (Ok m, h') ∧ h !! m = None ∧
    h' !! m = Some (map_fold merge_step bd od) ∧
    ∀ l d, h !! l = Some d →
           (∀ bt, bd !! tts_key = Some (VDict bt) → is_Some (od !! tts_key) → l ≠ bt) →
           h' !! l = Some d.
Proof.
  intros Hb Ho Hsub.
  assert (bd !! tts_key = None ∨ od !! tts_key = None →
          ∃ m h', merge_configs base over h = (Ok m, h') ∧ h !! m = None ∧
            h' !! m = Some (map_fold merge_step bd od) ∧
            ∀ l d, h !! l = Some d →
              (∀ bt, bd !! tts_key = Some (VDict bt) → is_Some (od !! tts_key) → l ≠ bt) →
              h' !! l = Some d) as Hno.
  { intros Hn. eexists _, _.
    split; [apply (merge_configs_no_clash h base over bd od); auto|].
    split; [apply fresh_loc_None|]. split; [apply lookup_insert_eq|].
    intros l d Hl _. rewrite lookup_insert_ne; [done|].
    apply not_eq_sym, fresh_loc_ne. eauto. }
  destruct (bd !! tts_key) as [b|] eqn:Hbt; [|auto].
  destruct (od !! tts_key) as [o|] eqn:Hot; [|auto].
  destruct (Hsub b o) as (bt & ot & -> & -> & [btd Hbts] & [otd Hots] & Hne); [done..|].
  destruct (merge_configs_sub_maps h base over bt ot bd od btd otd)
    as (h' & Hrun & Hm & _ & Hframe); [done..|].
  exists (fresh_loc h), h'. split; [done|]. split; [apply fresh_loc_None|].
  split; [done|]. intros l d Hl Hbt'. apply Hframe; eauto.
Qed.

(** X2: null safety at the top level.  For a base and an override such
    that, where both have a [text_to_speech] entry, both entries are
    sub-maps and the sub-map of the base is not the override object
    itself: a key other than [text_to_speech] that the override lacks,
    or holds with [None], keeps the value of the base; so does
    [text_to_speech] when the override lacks it. *)
Lemma merge_keeps_base_on_null (h : heap) (base over : loc) (bd od : dict) :
  h !! base = Some bd → h !! over = Some od → sub_maps h over bd od →
  ∃ m h', merge_configs base over h = (Ok m, h') ∧
    ∀ k, od !! k = None ∨ (k ≠ tts_key ∧ od !! k = Some VNone) →
         deref h' m !! k = bd !! k.
Proof.
  intros Hb Ho Hsub.
  destruct (merge_configs_entries h base over bd od) as (m & h' & Hrun & _ & Hm & _);
    [done..|].
  exists m, h'. split; [done|]. intros k Hk.
  rewrite (deref_Some _ _ _ Hm), merge_loop_lookup.
  destruct Hk as [-> | [Hne ->]]; [done|].
  by destruct (decide (k ≠ tts_key)).
Qed.

(** X3: the two argument objects themselves keep their entries.  This
    is for a base and an override such that, where both have a
    [text_to_speech] entry, both entries are sub-maps and the sub-map of
    the base is not the override object itself, and for a base whose
    [text_to_speech] is not the base object itself.  (The sub-map of the
    base is another object, which the merge can change.) *)
Lemma merge_keeps_top_level_arguments (h : heap) (base over : loc) (bd od : dict) :
  h !! base = Some bd → h !! over = Some od → sub_maps h over bd od →
  bd !! tts_key ≠ Some (VDict base) →
  ∃ m h', merge_configs base over h = (Ok m, h') ∧
          h' !! base = Some bd ∧ h' !! over = Some od.
Proof.
  intros Hb Ho Hsub Hcyc.
  destruct (merge_configs_entries h base over bd od) as (m & h' & Hrun & _ & _ & Hframe);
    [done..|].
  exists m, h'. split; [done|]. split; apply Hframe; try done.
  - intros bt Hbt _ ->. done.
  - intros bt Hbt [o Hot] ->.
    destruct (Hsub _ _ Hbt Hot) as (bt' & ot & [= <-] & _ & _ & _ & Hne). done.
Qed.

(** C4, as amended: merge override precedence.  For a base and an
    override such that, where both have a [text_to_speech] entry, both
    entries are sub-maps and the sub-map of the base is not the override
    object itself, [merge_configs] returns a mapping in which every
    top-level key other than [text_to_speech] that the override holds
    with a value other than [None] has the override's value; and when
    both hold a [text_to_speech] sub-map, the result's [text_to_speech]
    is the per-subkey merge: a sub-key of the override has the
    override's value, any other sub-key keeps the value of the base. *)
Theorem merge_override_precedence (h : heap) (base over : loc) (bd od : dict) :
  h !! base = Some bd → h !! over = Some od → sub_maps h over bd od →
  ∃ m h', merge_configs base over h = (Ok m, h') ∧
    (∀ k v, k ≠ tts_key → od !! k = Some v → v ≠ VNone → deref h' m !! k = Some v) ∧
    (∀ bt ot, bd !! tts_key = Some (VDict bt) → od !! tts_key = Some (VDict ot) →
       deref h' m !! tts_key = Some (VDict bt) ∧
       ∀ sk, deref h' bt !! sk =
               match deref h ot !! sk with
               | Some v => Some v
               | None => deref h bt !! sk
               end).
Proof.
  intros Hb Ho Hsub.
  assert (∀ k v, k ≠ tts_key → od !! k = Some v → v ≠ VNone →
            map_fold merge_step bd od !! k = Some v) as Htop.
  { intros k v Hk Hv Hnn. rewrite merge_loop_lookup, Hv.
    destruct (decide (k ≠ tts_key)); [|done]. by destruct v. }
  destruct (bd !! tts_key) as [b|] eqn:Hbt; [destruct (od !! tts_key) as [o|] eqn:Hot|].
  - destruct (Hsub b o) as (bt & ot & -> & -> & [btd Hbts] & [otd Hots] & Hne); [done..|].
    destruct (merge_configs_sub_maps h base over bt ot bd od btd otd)
      as (h' & Hrun & Hm & Hsubmap & _); [done..|].
    exists (fresh_loc h), h'. split; [done|]. split.
    + intros k v Hk Hv Hnn. rewrite (deref_Some _ _ _ Hm). by apply Htop.
    + intros bt' ot' [= <-] [= <-]. split.
      * rewrite (deref_Some _ _ _ Hm), merge_loop_lookup, Hot.
        by destruct (decide (tts_key ≠ tts_key)).
      * intros sk. rewrite (deref_Some _ _ _ Hsubmap), (deref_Some _ _ _ Hots),
          (deref_Some _ _ _ Hbts), lookup_union.
        destruct (otd !! sk), (btd !! sk); done.
  - eexists _, _. split; [apply (merge_configs_no_clash h base over bd od); auto|].
    split; [|discriminate].
    intros k v Hk Hv Hnn. rewrite deref_insert_eq. by apply Htop.
  - eexists _, _. split; [apply (merge_configs_no_clash h base over bd od); auto|].
    split; [|discriminate].
    intros k v Hk Hv Hnn. rewrite deref_insert_eq. by apply Htop.
Qed.

(** C5: merge identity.  Merging an empty override returns a new mapping
    with exactly the entries of the base, and leaves every object that
    was in the store as it was. *)
Theorem merge_identity (h : heap) (base over : loc) (bd : dict) :
  h !! base = Some bd → h !! over = Some ∅ →
  ∃ m h', merge_configs base over h = (Ok m, h') ∧
          h' !! m = Some bd ∧ h !! m = None ∧
          ∀ l, l ≠ m → h' !! l = h !! l.
Proof.
  intros Hb Ho. exists (fresh_loc h), (<[fresh_loc h := bd]> h).
  split; [|split; [|split]].
  - rewrite (merge_configs_no_clash h base over bd ∅) by auto.
    by rewrite merge_loop_empty.
  - apply lookup_insert_eq.
  - apply fresh_loc_None.
  - intros l Hl. by rewrite lookup_insert_ne.
Qed.

Lemma merge_override_precedence_witness :
  ∃ m h', merge_configs 1 2 Examples.submerge_store = (Ok m, h') ∧
    (∀ k v, k ≠ tts_key →
       ({[ tts_key := VDict 4; "output_language" := VStr "French" ]} : dict) !! k = Some v →
       v ≠ VNone → deref h' m !! k = Some v) ∧
    (∀ bt ot, ({[ tts_key := VDict 3 ]} : dict) !! tts_key = Some (VDict bt) →
       ({[ tts_key := VDict 4; "output_language" := VStr "French" ]} : dict) !! tts_key
         = Some (VDict ot) →
       deref h' m !! tts_key = Some (VDict bt) ∧
       ∀ sk, deref h' bt !! sk =
               match deref Examples.submerge_store ot !! sk with
               | Some v => Some v
               | None => deref Examples.submerge_store bt !! sk
               end).
Proof.
  apply (merge_override_precedence Examples.submerge_store 1 2).
  - reflexivity.
  - reflexivity.
  - intros b o Hb Ho. vm_compute in Hb, Ho.
    injection Hb as <-. injection Ho as <-.
    exists 3%positive, 4%positive.
    repeat split; try (vm_compute; eauto; fail). discriminate.
Defined.

(** The sub-merge example of the specification: {"a":1,"b":2} merged with
    {"b":9,"c":3} gives {"a":1,"b":9,"c":3}. *)
(** C4 as stated fails on the code, where it says "for every base and
    override".  When both have a [text_to_speech] entry and the
    override's is [None], or the base's is a string, [merge_configs]
    raises and returns no mapping; when the base's [text_to_speech] is
    the override object itself, the override is updated before the loop
    reads it, and the result holds "German" where the override held
    "French" when the call was made. *)
Lemma merge_precedence_needs_sub_maps :
  let null_run := merge_configs 1 2 Examples.null_section_store in
  let scalar_run := merge_configs 1 2 Examples.scalar_section_store in
  let shared_run := merge_configs 1 2 Examples.shared_override_store in
  (Examples.null_section_store !! 2%positive
     = Some {[ tts_key := VNone; "output_language" := VStr "French" ]} ∧
   null_run.1 = Raise (TypeError "'NoneType' object is not iterable")) ∧
  (Examples.scalar_section_store !! 2%positive
     = Some {[ tts_key := VDict 3; "output_language" := VStr "French" ]} ∧
   scalar_run.1 = Raise (AttributeError "'str' object has no attribute 'update'")) ∧
  (Examples.shared_override_store !! 2%positive
     = Some {[ tts_key := VDict 3; "output_language" := VStr "French" ]} ∧
   shared_run.1 = Ok 4%positive ∧
   deref shared_run.2 4 !! "output_language" = Some (VStr "German")) ∧
  (¬ ∃ m h', null_run = (Ok m, h') ∧
             deref h' m !! "output_language" = Some (VStr "French")) ∧
  (¬ ∃ m h', scalar_run = (Ok m, h') ∧
             deref h' m !! "output_language" = Some (VStr "French")) ∧
  (¬ ∃ m h', shared_run = (Ok m, h') ∧
             deref h' m !! "output_language" = Some (VStr "French")).
Proof.
  cbv zeta. repeat apply conj; try (vm_compute; reflexivity).
  - intros (m & h' & Hrun & _). vm_compute in Hrun. discriminate.
  - intros (m & h' & Hrun & _). vm_compute in Hrun. discriminate.
  - intros (m & h' & Hrun & Hlang). injection Hrun as <- <-.
    vm_compute in Hlang. discriminate.
Qed.

Example merge_sub_maps_example :
  let run := merge_configs 1 2 Examples.submerge_store in
  run.1 = Ok 5%positive ∧
  run.2 !! 5%positive = Some {[ tts_key := VDict 3; "output_language" := VStr "French" ]} ∧
  run.2 !! 3%positive = Some {[ "a" := VInt 1; "b" := VInt 9; "c" := VInt 3 ]}.
Proof. by_evaluation. Qed.

Lemma merge_identity_witness :
  ∃ m h', merge_configs 1 2 Examples.identity_store = (Ok m, h') ∧
          h' !! m = Some {[ tts_key := VDict 3; "creativity" := VInt 1 ]} ∧
          Examples.identity_store !! m = None ∧
          ∀ l, l ≠ m → h' !! l = Examples.identity_store !! l.
Proof.
  apply (merge_identity Examples.identity_store 1 2); reflexivity.
Defined.

(** C1: [merge_configs] is not free of side effects.  The copy of the
    base is shallow, so the [text_to_speech] sub-map of the result is the
    very object held by the base, and [update] changes it in place: after
    merging {"text_to_speech": {"a":1,"b":2}} with
    {"text_to_speech": {"b":9,"c":3}}, the sub-map of the base argument
    reads {"a":1,"b":9,"c":3}. *)
Theorem merge_configs_changes_base_sub_map :
  let h := Examples.submerge_store in
  let run := merge_configs 1 2 h in
  h !! 1%positive = Some {[ tts_key := VDict 3 ]} ∧
  h !! 3%positive = Some {[ "a" := VInt 1; "b" := VInt 2 ]} ∧
  run.1 = Ok 5%positive ∧
  run.2 !! 1%positive = Some {[ tts_key := VDict 3 ]} ∧
  run.2 !! 3%positive = Some {[ "a" := VInt 1; "b" := VInt 9; "c" := VInt 3 ]}.
Proof. by_evaluation. Qed.

(** X4: the loop never assigns [text_to_speech]: a base without the entry
    gives a result without it, whatever the override holds. *)
Lemma merge_configs_skips_text_to_speech (h : heap) (base over : loc) (bd od : dict) :
  h !! base = Some bd → h !! over = Some od → bd !! tts_key = None →
  ∃ m h', merge_configs base over h = (Ok m, h') ∧ deref h' m !! tts_key = None.
Proof.
  intros Hb Ho Hn. eexists _, _.
  split; [apply (merge_configs_no_clash h base over bd od); auto|].
  rewrite deref_insert_eq, merge_loop_lookup.
  destruct (od !! tts_key); [|done]. by destruct (decide (tts_key ≠ tts_key)).
Qed.

(** C2: the override's [text_to_speech] is not inserted when the base
    lacks the key.  Merging the empty base with
    {"text_to_speech": {"default_tts_model": "openai"}} returns a mapping
    without a [text_to_speech] entry. *)
Theorem merge_configs_drops_override_text_to_speech :
  let h := Examples.empty_base_store in
  let run := merge_configs 1 2 h in
  deref h 1 !! tts_key = None ∧
  deref h 2 !! tts_key = Some (VDict 3) ∧
  run.1 = Ok 4%positive ∧
  deref run.2 4 !! tts_key = None ∧
  run.2 !! 4%positive = Some ∅.
Proof. by_evaluation. Qed.

(** C3: a [None] inside the override's [text_to_speech] erases the value
    of the base: merging {"text_to_speech": {"model": "tts-1"}} with
    {"text_to_speech": {"model": None}} leaves "model" at [None]; and an
    override whose [text_to_speech] is itself [None] makes the merge
    raise. *)
Theorem merge_configs_null_sub_key_erases :
  let h := Examples.null_subkey_store in
  let run := merge_configs 1 2 h in
  deref h 3 !! "model" = Some (VStr "tts-1") ∧
  deref h 4 !! "model" = Some VNone ∧
  run.1 = Ok 6%positive ∧
  deref run.2 6 !! tts_key = Some (VDict 3) ∧
  deref run.2 3 !! "model" = Some VNone ∧
  (merge_configs 1 5 h).1 = Raise (TypeError "'NoneType' object is not iterable").
Proof. by_evaluation. Qed.

(** * Properties of the request handler *)

Section Handler.
Context (P : platform).
Implicit Types (w : world (fs P)) (data : dict) (e : exn).

Lemma bind_ok {A B : Type} (m : M P A) (k : A → M P B) w a w' :
  m w = (Ok a, w') → bind m k w = k a w'.
Proof. unfold bind. by intros ->. Qed.

Lemma bind_raise {A B : Type} (m : M P A) (k : A → M P B) w e w' :
  m w = (Raise e, w') → bind m k w = (Raise e, w').
Proof. unfold bind. by intros ->. Qed.

(** What a step gave when the steps after it gave a result. *)
Lemma bind_ok_inv {A B : Type} (m : M P A) (k : A → M P B) w b w2 :
  bind m k w = (Ok b, w2) → ∃ a w1, m w = (Ok a, w1) ∧ k a w1 = (Ok b, w2).
Proof.
  unfold bind. destruct (m w) as [[a|e] w1]; [eauto | discriminate].
Qed.

Lemma new_dict_empty_run w :
  new_dict (P:=P) ∅ w =
    (Ok (VDict (fresh_loc (w_heap w))),
     World (<[fresh_loc (w_heap w) := ∅]> (w_heap w)) (w_environ w) (w_files w)).
Proof. reflexivity. Qed.


(** [obj.get(key, default)] with a constant default. *)
Lemma py_get_const_run (b : loc) (k : string) (dflt : val) w :
  py_get (P:=P) (VDict b) (VStr k) (ret dflt) w =
    (Ok (default dflt (deref (w_heap w) b !! k)), w).
Proof. reflexivity. Qed.


(** ** What the steps leave unchanged *)

Lemma keeps_environ_ret {A : Type} (a : A) : keeps_environ (ret (P:=P) a).
Proof. by intros w. Qed.

Lemma keeps_environ_raise {A : Type} e : keeps_environ (raise (P:=P) (A:=A) e).
Proof. by intros w. Qed.

Lemma keeps_environ_lift {A : Type} (r : outcome A) : keeps_environ (lift (P:=P) r).
Proof. by intros w. Qed.

Lemma keeps_environ_py_bool (v : val) : keeps_environ (py_bool (P:=P) v).
Proof. by intros w. Qed.

Lemma keeps_environ_bind {A B : Type} (m : M P A) (k : A → M P B) :
  keeps_environ m → (∀ a, keeps_environ (k a)) → keeps_environ (bind m k).
Proof.
  intros Hm Hk w. unfold bind. specialize (Hm w).
  destruct (m w) as [[a|e] w1]; cbn in *; [|done].
  by rewrite Hk.
Qed.

Lemma keeps_environ_on_heap {A : Type} (f : heap → outcome A * heap) :
  keeps_environ (on_heap (P:=P) f).
Proof. intros w. unfold on_heap. by destruct (f (w_heap w)). Qed.

Lemma keeps_environ_new_dict (d : dict) : keeps_environ (new_dict (P:=P) d).
Proof. apply keeps_environ_on_heap. Qed.

Lemma keeps_environ_new_dict_ref (d : dict) : keeps_environ (new_dict_ref (P:=P) d).
Proof. apply keeps_environ_on_heap. Qed.

Lemma keeps_environ_py_get (obj key : val) (dflt : M P val) :
  keeps_environ dflt → keeps_environ (py_get obj key dflt).
Proof.
  intros Hd. unfold py_get.
  destruct obj; try apply keeps_environ_raise.
  apply keeps_environ_bind; [done|]. intros d.
  destruct key; try apply keeps_environ_ret; try apply keeps_environ_raise.
  by intros w.
Qed.

Lemma keeps_environ_data_get data (key : string) (dflt : M P val) :
  keeps_environ dflt → keeps_environ (data_get data key dflt).
Proof.
  intros Hd. apply keeps_environ_bind; [done|]. intros d. apply keeps_environ_ret.
Qed.

Lemma keeps_environ_load_base_config : keeps_environ (load_base_config (P:=P)).
Proof.
  intros w. unfold load_base_config.
  destruct (safe_load_config P config_path (w_files w) (w_heap w)) as [[v|e] h]; [done|].
  by rewrite keeps_environ_new_dict.
Qed.

Lemma keeps_environ_call_merge_configs (base_config : val) (u : loc) :
  keeps_environ (call_merge_configs (P:=P) base_config u).
Proof.
  unfold call_merge_configs.
  destruct base_config; auto using keeps_environ_raise, keeps_environ_on_heap.
Qed.

Lemma keeps_environ_configure data : keeps_environ (configure (P:=P) data).
Proof.
  unfold configure, resolve_tts_model, build_user_config, option_of.
  auto 50 using keeps_environ_ret, keeps_environ_lift, keeps_environ_py_bool,
    keeps_environ_bind, keeps_environ_new_dict, keeps_environ_new_dict_ref,
    keeps_environ_py_get, keeps_environ_data_get, keeps_environ_load_base_config,
    keeps_environ_call_merge_configs.
Qed.

(** The [tts_model] handed to the generator is the one line 86 resolved
    from the loaded base configuration. *)
Lemma generator_receives_resolved_tts_model data w (args : gen_args) w1 :
  prepare data w = (Ok args, w1) →
  ∃ wc base w0 w0',
    set_credentials data w = (Ok (), wc) ∧
    load_base_config wc = (Ok base, w0) ∧
    resolve_tts_model data base w0 = (Ok (tts_model args), w0').
Proof.
  unfold prepare, configure. intros Hrun.
  apply bind_ok_inv in Hrun as ([] & wc & Hcred & Hrun).
  apply bind_ok_inv in Hrun as (base & w0 & Hload & Hrun).
  apply bind_ok_inv in Hrun as (tts & w0' & Hres & Hrun).
  exists wc, base, w0, w0'. split; [done|]. split; [done|].
  repeat (apply bind_ok_inv in Hrun as (? & ? & _ & Hrun)).
  unfold ret in Hrun. by injection Hrun as <- _.
Qed.

(** ** Credentials *)

(** What one credential step that went through did: nothing but the one
    variable changed, and it changed only for a credential that counts
    as true, which then is a string, stored as it is. *)
Lemma set_credential_ok_inv data (field var : string) w (u : unit) w' :
  set_credential (P:=P) data field var w = (Ok u, w') →
  w_heap w' = w_heap w ∧ w_files w' = w_files w ∧
  (∀ var', var' ≠ var → w_environ w' !! var' = w_environ w !! var') ∧
  match data !! field with
  | Some v => if truthy (w_heap w) v
              then ∃ s, v = VStr s ∧ w_environ w' !! var = Some s
              else w_environ w' !! var = w_environ w !! var
  | None => w_environ w' !! var = w_environ w !! var
  end.
Proof.
  unfold set_credential, environ_setitem.
  destruct (data !! field) as [v|]; cbn [from_option id].
  - destruct (truthy (w_heap w) v) eqn:Ht.
    + destruct v; try discriminate.
      destruct (has_nul s); [discriminate|]. intros [= _ <-]. cbn.
      split; [done|]. split; [done|]. split.
      * intros var' Hne. by rewrite lookup_insert_ne.
      * exists s. split; [done|]. apply lookup_insert_eq.
    + intros [= _ <-]. done.
  - cbn. intros [= _ <-]. done.
Qed.

(** A credential that is absent, empty, or a string without a NUL
    character never makes the step raise. *)
Lemma set_credential_ok data (field var : string) w :
  match data !! field with
  | Some (VStr s) => has_nul s = false
  | Some v => truthy (w_heap w) v = false
  | None => True
  end →
  ∃ w', set_credential (P:=P) data field var w = (Ok (), w').
Proof.
  unfold set_credential, environ_setitem.
  destruct (data !! field) as [v|]; cbn [from_option id]; [|cbn; eauto].
  destruct v; try (intros ->; eauto; fail).
  intros ->. destruct (truthy (w_heap w) (VStr s)); eauto.
Qed.

(** C9: credentials and the environment.  When the handler reaches the
    call of the generator, the generator runs in the state that the
    preparation left, and in that state, for each of the three
    providers: if the request holds a credential for it (a value that
    counts as true), the provider's environment variable is that
    credential; if the request holds none (the field is absent, or its
    value counts as false), the provider's variable is what it was before
    the request. *)
Theorem credentials_in_environ_before_generator data (rnd : list byte) w
    (args : gen_args) w1 :
  prepare data w = (Ok args, w1) →
  generate_body data rnd w =
    bind (generate_podcast P (urls args) (conversation_config args)
            (tts_model args) (longform args))
         (handle_result rnd) w1 ∧
  ∀ field var, (field, var) ∈ providers →
    match data !! field with
    | Some v => if truthy (w_heap w) v
                then ∃ s, v = VStr s ∧ w_environ w1 !! var = Some s
                else w_environ w1 !! var = w_environ w !! var
    | None => w_environ w1 !! var = w_environ w !! var
    end.
Proof.
  intros Hprep. split.
  { unfold generate_body. by rewrite (bind_ok _ _ _ _ _ Hprep). }
  unfold prepare in Hprep.
  apply bind_ok_inv in Hprep as (u & wc & Hcred & Hconf).
  pose proof (keeps_environ_configure data wc) as Henv.
  rewrite Hconf in Henv. cbn in Henv. rewrite Henv. clear Hconf Henv.
  unfold set_credentials in Hcred.
  apply bind_ok_inv in Hcred as (u1 & wa & H1 & Hcred).
  apply bind_ok_inv in Hcred as (u2 & wb & H2 & H3).
  apply set_credential_ok_inv in H1 as (Hh1 & _ & Ho1 & Hs1).
  apply set_credential_ok_inv in H2 as (Hh2 & _ & Ho2 & Hs2).
  apply set_credential_ok_inv in H3 as (Hh3 & _ & Ho3 & Hs3).
  rewrite Hh2, Hh1 in Hs3. rewrite Hh1 in Hs2.
  intros field var Hin. unfold providers in Hin.
  repeat (apply elem_of_cons in Hin as [[= -> ->] | Hin]).
  - rewrite (Ho3 "OPENAI_API_KEY"), (Ho2 "OPENAI_API_KEY") by discriminate. exact Hs1.
  - rewrite (Ho3 "GEMINI_API_KEY") by discriminate.
    destruct (data !! "google_key") as [v|]; [destruct (truthy (w_heap w) v)|];
      [done | | ]; by rewrite Hs2, (Ho1 "GEMINI_API_KEY") by discriminate.
  - destruct (data !! "elevenlabs_key") as [v|]; [destruct (truthy (w_heap w) v)|];
      [done | | ];
      by rewrite Hs3, (Ho2 "ELEVENLABS_API_KEY"), (Ho1 "ELEVENLABS_API_KEY") by discriminate.
  - by apply elem_of_nil in Hin.
Qed.

(** ** The generated file name *)

Lemma hex_digits_lower (b : byte) :
  is_lower_hex (hex_digit (Byte.to_N b / 16)) = true ∧
  is_lower_hex (hex_digit (Byte.to_N b mod 16)) = true.
Proof. by destruct b. Qed.

Lemma hex_length (bs : list byte) : String.length (hex bs) = (2 * length bs)%nat.
Proof. induction bs as [|b bs IH]; [done|]. cbn [hex String.length length]. lia. Qed.

Lemma hex_lower (bs : list byte) :
  forallb is_lower_hex (String.list_ascii_of_string (hex bs)) = true.
Proof.
  induction bs as [|b bs IH]; [done|].
  cbn [hex String.list_ascii_of_string forallb].
  destruct (hex_digits_lower b) as [-> ->]. by rewrite IH.
Qed.

(** ** The result of the generator *)

Lemma store_artifact_run (rnd : list byte) (src : val) w :
  store_artifact (P:=P) rnd src w =
    match copy2 P src (os_path_join (TEMP_DIR P) (podcast_filename rnd)) (w_files w) with
    | (Ok _, f) =>
        (Ok {[ "audioUrl" := VStr ("/audio/" +:+ podcast_filename rnd) ]},
         World (w_heap w) (w_environ w) f)
    | (Raise e, f) => (Raise e, World (w_heap w) (w_environ w) f)
    end.
Proof. reflexivity. Qed.

(** The request ends as the handling of the result ends. *)
Lemma endpoint_after_generator data (rnd : list byte) w (args : gen_args) w1
    (result : gen_result) w2 :
  prepare data w = (Ok args, w1) →
  generate_podcast P (urls args) (conversation_config args) (tts_model args)
    (longform args) w1 = (Ok result, w2) →
  generate_podcast_endpoint data rnd w =
    match handle_result rnd result w2 with
    | (Ok body, w3) => (Ok body, w3)
    | (Raise e, w3) => (Raise (HTTPException 500 (str_exn P e)), w3)
    end.
Proof.
  intros Hprep Hgen. unfold generate_podcast_endpoint, generate_body.
  by rewrite (bind_ok _ _ _ _ _ Hprep), (bind_ok _ _ _ _ _ Hgen).
Qed.

Lemma ends_with_copy_intro data (rnd : list byte) w (args : gen_args) w1
    (result : gen_result) w2 (src : val) :
  prepare data w = (Ok args, w1) →
  generate_podcast P (urls args) (conversation_config args) (tts_model args)
    (longform args) w1 = (Ok result, w2) →
  handle_result rnd result w2 = store_artifact rnd src w2 →
  ends_with_copy data rnd w src w2.
Proof.
  intros Hprep Hgen Hres. unfold ends_with_copy. cbv zeta.
  rewrite (endpoint_after_generator _ _ _ _ _ _ _ Hprep Hgen), Hres, store_artifact_run.
  by destruct (copy2 P src _ (w_files w2)) as [[u|e] f].
Qed.

(** C7, amended: the result of the generator.  The file name is
    "podcast_", sixteen lowercase hexadecimal digits, ".mp3".  If the
    result is a string naming an existing file, or an object with an
    [audio_path] attribute that counts as true, the handler calls
    [shutil.copy2] from that path to the file of that name in the
    artifact directory; the request returns {"audioUrl":
    "/audio/<filename>"} if the copy goes through and fails with status
    500 if the copy raises.  For every other result the request fails
    with status 500. *)
Theorem generate_result_handling data (rnd : list byte) w (args : gen_args) w1
    (result : gen_result) w2 :
  length rnd = 8%nat →
  prepare data w = (Ok args, w1) →
  generate_podcast P (urls args) (conversation_config args) (tts_model args)
    (longform args) w1 = (Ok result, w2) →
  (∃ x, podcast_filename rnd = "podcast_" +:+ x +:+ ".mp3" ∧
        String.length x = 16%nat ∧
        forallb is_lower_hex (String.list_ascii_of_string x) = true) ∧
  (∀ s, result = ResVal (VStr s) → isfile P s (w_files w2) = true →
        ends_with_copy data rnd w (VStr s) w2) ∧
  (∀ attrs src, result = ResObj attrs → attrs !! "audio_path" = Some src →
        truthy (w_heap w2) src = true → ends_with_copy data rnd w src w2) ∧
  ((∀ s, result = ResVal (VStr s) → isfile P s (w_files w2) = false) →
   (∀ attrs src, result = ResObj attrs → attrs !! "audio_path" = Some src →
        truthy (w_heap w2) src = false) →
   generate_podcast_endpoint data rnd w =
     (Raise (HTTPException 500 (str_exn P invalid_result)), w2)).
Proof.
  intros Hlen Hprep Hgen. split; [|split; [|split]].
  - exists (hex rnd). split; [done|]. split; [|apply hex_lower].
    rewrite hex_length, Hlen. done.
  - intros s -> Hfile. apply (ends_with_copy_intro _ _ _ _ _ _ _ _ Hprep Hgen).
    unfold handle_result, existing_path. by rewrite Hfile.
  - intros attrs src -> Hattr Htrue. apply (ends_with_copy_intro _ _ _ _ _ _ _ _ Hprep Hgen).
    unfold handle_result, existing_path, populated_audio_path. by rewrite Hattr, Htrue.
  - intros Hstr Hobj. rewrite (endpoint_after_generator _ _ _ _ _ _ _ Hprep Hgen).
    unfold handle_result, existing_path, populated_audio_path.
    destruct result as [v|attrs].
    + destruct v; try done. by rewrite (Hstr s).
    + destruct (attrs !! "audio_path") as [src|] eqn:Hattr; [|done].
      by rewrite (Hobj attrs src).
Qed.

(** ** Failures *)


(** ** Creativity *)

Lemma keeps_store_ret {A : Type} (a : A) : keeps_store (ret (P:=P) a).
Proof. by intros w l. Qed.

Lemma keeps_store_raise {A : Type} e : keeps_store (raise (P:=P) (A:=A) e).
Proof. by intros w l. Qed.

Lemma keeps_store_bind {A B : Type} (m : M P A) (k : A → M P B) :
  keeps_store m → (∀ a, keeps_store (k a)) → keeps_store (bind m k).
Proof.
  intros Hm Hk w l. unfold bind. specialize (Hm w l).
  destruct (m w) as [[a|e] w1]; cbn in *; [|done].
  by rewrite Hk.
Qed.

Lemma keeps_store_new_dict_empty : keeps_store (new_dict (P:=P) ∅).
Proof. intros w l. rewrite new_dict_empty_run. cbn. apply deref_alloc_empty. Qed.

Lemma keeps_store_py_get (obj key : val) (dflt : M P val) :
  keeps_store dflt → keeps_store (py_get obj key dflt).
Proof.
  intros Hd. unfold py_get.
  destruct obj; try apply keeps_store_raise.
  apply keeps_store_bind; [done|]. intros d.
  destruct key; try apply keeps_store_ret; try apply keeps_store_raise.
  by intros w.
Qed.

Lemma keeps_store_data_get data (key : string) (dflt : M P val) :
  keeps_store dflt → keeps_store (data_get data key dflt).
Proof.
  intros Hd. apply keeps_store_bind; [done|]. intros d. apply keeps_store_ret.
Qed.

(** [obj.get(key, {})] and [data.get(key, {})] keep the store. *)
Lemma keeps_store_py_get_or_empty (obj key : val) :
  keeps_store (py_get (P:=P) obj key (new_dict ∅)).
Proof. apply keeps_store_py_get, keeps_store_new_dict_empty. Qed.

Lemma keeps_store_data_get_or_empty data (key : string) :
  keeps_store (data_get (P:=P) data key (new_dict ∅)).
Proof. apply keeps_store_data_get, keeps_store_new_dict_empty. Qed.

Lemma keeps_store_resolve_tts_model data (base_config : val) :
  keeps_store (resolve_tts_model (P:=P) data base_config).
Proof.
  unfold resolve_tts_model. apply keeps_store_data_get, keeps_store_bind.
  - apply keeps_store_py_get_or_empty.
  - intros tts. apply keeps_store_py_get, keeps_store_ret.
Qed.

(** What a step that kept the store left, read off its run. *)
Lemma keeps_store_run {A : Type} (m : M P A) w (r : outcome A) w' (l : loc) :
  m w = (r, w') → keeps_store m → deref (w_heap w') l = deref (w_heap w) l.
Proof. intros Hrun Hm. specialize (Hm w l). by rewrite Hrun in Hm. Qed.

(** The credentials change neither the store nor the files. *)
Lemma set_credentials_ok_inv data w (u : unit) w' :
  set_credentials (P:=P) data w = (Ok u, w') →
  w_heap w' = w_heap w ∧ w_files w' = w_files w.
Proof.
  unfold set_credentials. intros Hrun.
  apply bind_ok_inv in Hrun as (u1 & wa & H1 & Hrun).
  apply bind_ok_inv in Hrun as (u2 & wb & H2 & H3).
  apply set_credential_ok_inv in H1 as (Hh1 & Hf1 & _).
  apply set_credential_ok_inv in H2 as (Hh2 & Hf2 & _).
  apply set_credential_ok_inv in H3 as (Hh3 & Hf3 & _).
  split; congruence.
Qed.

(** The base configuration does not depend on the environment. *)
Lemma load_base_config_same w w' :
  w_heap w' = w_heap w → w_files w' = w_files w →
  (load_base_config (P:=P) w').1 = (load_base_config w).1 ∧
  w_heap (load_base_config (P:=P) w').2 = w_heap (load_base_config w).2.
Proof.
  intros Hh Hf. unfold load_base_config. rewrite Hh, Hf.
  by destruct (safe_load_config P config_path (w_files w) (w_heap w)) as [[v|e] h].
Qed.

Lemma raises_bind_raise {A B : Type} (m : M P A) (k : A → M P B) w :
  raises (m w) → raises (bind m k w).
Proof. intros (e & w' & Hm). exists e, w'. by apply bind_raise. Qed.

(** A sequence raises if what follows its first step raises whenever
    that step goes through. *)
Lemma raises_bind {A B : Type} (m : M P A) (k : A → M P B) w :
  (∀ a w1, m w = (Ok a, w1) → raises (k a w1)) → raises (bind m k w).
Proof.
  intros Hk. unfold bind. destruct (m w) as [[a|e] w1]; [by apply Hk|].
  by exists e, w1.
Qed.

Lemma raises_intro {A : Type} e w' : raises (P:=P) (A:=A) (Raise e, w').
Proof. by exists e, w'. Qed.

(** The first entry of the display of [user_config]: a creativity that
    [float] rejects makes the display raise. *)
Lemma build_user_config_raises data
    (base_config tts_model tts_base_config voices default_voices : val) w :
  (∃ v e, data !! "creativity" = Some v ∧ py_float P v = Raise e) ∨
  (∃ b e, data !! "creativity" = None ∧ base_config = VDict b ∧
          py_float P (default (VFloat float_0_7) (deref (w_heap w) b !! "creativity"))
            = Raise e) →
  raises (build_user_config data base_config tts_model tts_base_config
            voices default_voices w).
Proof.
  intros Hc. unfold build_user_config, option_of, data_get.
  destruct base_config as [| | | | | |b];
    try (do 2 apply raises_bind_raise; apply raises_intro).
  rewrite (bind_ok _ _ w
    (default (default (VFloat float_0_7) (deref (w_heap w) b !! "creativity"))
       (data !! "creativity")) w).
  - destruct Hc as [(v & e & -> & Hf) | (b' & e & -> & [= <-] & Hf)];
      cbn [from_option id]; unfold lift at 1;
      rewrite (bind_raise _ _ w e w) by (by rewrite Hf); apply raises_intro.
  - by rewrite (bind_ok _ _ _ _ _ (py_get_const_run b "creativity" (VFloat float_0_7) w)).
Qed.

Lemma endpoint_prepare_raises data (rnd : list byte) w :
  raises (prepare data w) →
  ∃ detail w', generate_podcast_endpoint data rnd w =
                 (Raise (HTTPException 500 detail), w').
Proof.
  intros (e & w' & Hprep). exists (str_exn P e), w'.
  unfold generate_podcast_endpoint, generate_body.
  by rewrite (bind_raise _ _ _ _ _ Hprep).
Qed.

(** C10: a creativity that [float] rejects.  If the request has a
    [creativity] field whose value [float] rejects, or has none and the
    loaded base configuration has a [creativity] entry that [float]
    rejects, the request fails with status 500: the resolved value is
    converted without a guard, and the default 0.7 is used only when
    neither has the entry. *)
Theorem unconvertible_creativity_fails data (rnd : list byte) w :
  (∃ v e, data !! "creativity" = Some v ∧ py_float P v = Raise e) ∨
  (∃ b w0 e, data !! "creativity" = None ∧
             load_base_config w = (Ok (VDict b), w0) ∧
             py_float P (default (VFloat float_0_7)
                           (deref (w_heap w0) b !! "creativity")) = Raise e) →
  ∃ detail w', generate_podcast_endpoint data rnd w =
                 (Raise (HTTPException 500 detail), w').
Proof.
  intros Hc. apply endpoint_prepare_raises. unfold prepare.
  apply raises_bind. intros u wc Hcred.
  apply set_credentials_ok_inv in Hcred as [Hh Hf].
  destruct (load_base_config_same w wc Hh Hf) as [Hl1 Hl2].
  unfold configure.
  apply raises_bind. intros base w0' Hload. rewrite Hload in Hl1, Hl2. cbn in Hl1, Hl2.
  apply raises_bind. intros tts w1 H1.
  apply raises_bind. intros tbc w2 H2.
  apply raises_bind. intros voices w3 H3.
  apply raises_bind. intros dv w4 H4.
  apply raises_bind_raise, build_user_config_raises.
  destruct Hc as [Hc | (b & w0 & e & Hn & Hl & Hfl)]; [by left | right].
  rewrite Hl in Hl1, Hl2. cbn in Hl1, Hl2. injection Hl1 as ->.
  exists b, e. split; [done|]. split; [done|].
  rewrite (keeps_store_run _ _ _ _ b H4) by apply keeps_store_py_get_or_empty.
  rewrite (keeps_store_run _ _ _ _ b H3) by apply keeps_store_data_get_or_empty.
  rewrite (keeps_store_run _ _ _ _ b H2)
    by (apply keeps_store_bind; intros; apply keeps_store_py_get_or_empty).
  rewrite (keeps_store_run _ _ _ _ b H1) by apply keeps_store_resolve_tts_model.
  by rewrite Hl2.
Qed.

End Handler.

(** * The theorems at concrete requests *)

Section Concrete.
Import Examples.



(** The generator receives the request's engine, and "openai" when
    neither the request nor a base configuration names one. *)
Example tts_model_examples :
  (match prepare (P:=example_platform gen_path)
           (<[ "tts_model" := VStr "elevenlabs" ]> request) configured_world with
   | (Ok args, _) => Some (tts_model args)
   | (Raise _, _) => None
   end) = Some (VStr "elevenlabs") ∧
  (match prepare (P:=example_platform gen_path) request empty_world with
   | (Ok args, _) => Some (tts_model args)
   | (Raise _, _) => None
   end) = Some (VStr "openai").
Proof. split; vm_compute; reflexivity. Qed.

Lemma credentials_in_environ_before_generator_witness :
  ∃ args w1,
    prepare (P:=example_platform gen_path) request empty_world = (Ok args, w1) ∧
    w_environ w1 !! "OPENAI_API_KEY" = Some "sk-1" ∧
    w_environ w1 !! "GEMINI_API_KEY" = None.
Proof.
  assert (∃ args w1, prepare (P:=example_platform gen_path) request empty_world
                     = (Ok args, w1)) as (args & w1 & Hprep).
  { vm_compute. eauto. }
  exists args, w1. split; [exact Hprep|].
  destruct (credentials_in_environ_before_generator (example_platform gen_path)
              request rnd8 empty_world args w1 Hprep) as [_ Henv].
  split.
  - destruct (Henv "openai_key" "OPENAI_API_KEY") as (s & Hs & Hvar).
    + unfold providers. apply elem_of_cons. by left.
    + injection Hs as <-. exact Hvar.
  - apply (Henv "google_key" "GEMINI_API_KEY").
    unfold providers. apply elem_of_cons. right. apply elem_of_cons. by left.
Defined.

(** C7 as stated fails on the code: an object whose [audio_path]
    is the non-empty string "/tmp/missing.mp3", naming no file, is not
    copied; [shutil.copy2] raises, the request fails with status 500 and
    no file is stored. *)
Lemma audio_path_without_file_is_500 :
  let P := example_platform gen_missing in
  let run := generate_podcast_endpoint (P:=P) request rnd8 empty_world in
  populated_audio_path (P:=P) (ResObj {[ "audio_path" := VStr "/tmp/missing.mp3" ]})
    empty_world = Some (VStr "/tmp/missing.mp3") ∧
  run.1 = Raise (HTTPException 500
                   "[Errno 2] No such file or directory: '/tmp/missing.mp3'") ∧
  w_files run.2 = (∅ : files) ∧
  ¬ ∃ body, run.1 = Ok body.
Proof.
  cbv zeta. repeat apply conj; try (vm_compute; reflexivity).
  intros [body Hbody]. vm_compute in Hbody. discriminate.
Qed.

(** C2 seen from the handler: without a base configuration (no file is
    read, the base is empty) the configuration handed to the generator
    has no [text_to_speech] entry, though the handler built one from the
    request. *)
Example empty_base_drops_text_to_speech :
  (λ c : dict * heap, c.1 !! tts_key)
    <$> handed_config (prepare (P:=example_platform gen_path) request empty_world)
  = Some None.
Proof. vm_compute. reflexivity. Qed.

(** C3 seen from the handler: the request sends [null] for [tts_model],
    the handler puts it in the [text_to_speech] override, and the
    configuration handed to the generator has [default_tts_model] at
    [None] where the base configuration says "openai". *)
Example null_tts_model_erases_default :
  (handed_config (prepare (P:=example_platform gen_path)
                    null_tts_model_request configured_world)
     ≫= sub_map tts_key) ≫= (λ c : dict * heap, c.1 !! "default_tts_model")
  = Some VNone.
Proof. vm_compute. reflexivity. Qed.

(** Voice fallback: with no voices in the request, the override takes
    the default voices of the resolved engine. *)
Example voice_fallback_example :
  fst <$> ((handed_config (prepare (P:=example_platform gen_path) request configured_world)
             ≫= sub_map tts_key) ≫= sub_map "default_voices")
  = Some ({[ "question" := VStr "echo"; "answer" := VStr "shimmer" ]} : dict).
Proof. vm_compute. reflexivity. Qed.

Lemma generate_result_handling_witness :
  (generate_podcast_endpoint (P:=example_platform gen_path) request rnd8 empty_world).1
  = Ok {[ "audioUrl" := VStr "/audio/podcast_00017f80abcdefff.mp3" ]}.
Proof.
  assert (∃ args (w1 : world files),
            prepare (P:=example_platform gen_path) request empty_world
            = (Ok args, w1)) as (args & w1 & Hprep).
  { vm_compute. eauto. }
  destruct (generate_result_handling (example_platform gen_path) request rnd8
              empty_world args w1 (ResVal (VStr "/tmp/out.mp3"))
              (World (w_heap w1) (w_environ w1) (<["/tmp/out.mp3" := "ID3"]> (w_files w1))))
    as (_ & Hpath & _).
  - reflexivity.
  - exact Hprep.
  - reflexivity.
  - specialize (Hpath "/tmp/out.mp3" eq_refl).
    unfold ends_with_copy in Hpath. cbn [isfile copy2 example_platform w_files] in Hpath.
    unfold files_isfile, files_copy2 in Hpath.
    rewrite lookup_insert_eq in Hpath.
    rewrite (Hpath ltac:(by apply bool_decide_eq_true_2)). reflexivity.
Defined.


Lemma unconvertible_creativity_fails_witness :
  ∃ detail w',
    generate_podcast_endpoint (P:=example_platform gen_path) bad_creativity_request
      rnd8 empty_world = (Raise (HTTPException 500 detail), w').
Proof.
  apply (unconvertible_creativity_fails (example_platform gen_path)).
  left. exists (VStr "high"), (ValueError "could not convert string to float: 'high'").
  split; reflexivity.
Defined.

(** The request above, run: the detail is the message of [float]. *)
Example bad_creativity_example :
  (generate_podcast_endpoint (P:=example_platform gen_path) bad_creativity_request
     rnd8 empty_world).1
  = Raise (HTTPException 500 "could not convert string to float: 'high'").
Proof. vm_compute. reflexivity. Qed.

(** A result that is neither a path nor an object with [audio_path]. *)
Example unrecognized_result_example :
  (generate_podcast_endpoint
     (P:=example_platform (λ _ _ _ _ w, (Ok (ResVal VNone), w)))
     request rnd8 empty_world).1
  = Raise (HTTPException 500 "500: Invalid result format or no audio generated").
Proof. vm_compute. reflexivity. Qed.

End Concrete.

(** * Further properties of [merge_configs] *)

Section MergeMore.
Implicit Types (h : heap) (bd od : dict).

Lemma merge_loop_entries bd od : map_fold merge_step bd od = merge_entries bd od.
Proof.
  apply map_eq. intros k. unfold merge_entries.
  rewrite merge_loop_lookup, lookup_union, map_lookup_filter.
  destruct (od !! k) as [v|] eqn:Hv; cbn; [|by rewrite (left_id_L None _)].
  destruct (decide (k ≠ tts_key)) as [Hk|Hk].
  - destruct (is_not_None v) eqn:Hn.
    + rewrite option_guard_True by done. cbn. by destruct (bd !! k).
    + rewrite option_guard_False by (intros [_ ?]; congruence).
      cbn. by rewrite (left_id_L None _).
  - rewrite option_guard_False by (intros [? _]; done).
    cbn. by rewrite (left_id_L None _).
Qed.

(** The run of [merge_configs] on configurations of the expected shape,
    with what it leaves unchanged. *)
Lemma merge_configs_result h (base over : loc) bd od :
  h !! base = Some bd → h !! over = Some od → sub_maps h over bd od →
  ∃ m h', merge_configs base over h = (Ok m, h') ∧ h !! m = None ∧
    h' !! m = Some (merge_entries bd od) ∧
    ∀ l d, h !! l = Some d →
           (∀ bt, bd !! tts_key = Some (VDict bt) → is_Some (od !! tts_key) → l ≠ bt) →
           h' !! l = Some d.
Proof.
  intros Hb Ho Hsub.
  destruct (merge_configs_entries h base over bd od) as (m & h' & Hrun & Hnew & Hm & Hfr);
    [done..|].
  exists m, h'. by rewrite <- merge_loop_entries.
Qed.

(** X1: the entries of the merge.  For a base and an override such that,
    where both have a [text_to_speech] entry, both entries are sub-maps
    and the sub-map of the base is not the override object itself,
    [merge_configs] returns a new object, in no use before, whose
    entries are those of the base overlaid with the entries of the
    override that are neither [text_to_speech] nor [None]. *)
Theorem merge_result_entries h (base over : loc) bd od :
  h !! base = Some bd → h !! over = Some od → sub_maps h over bd od →
  ∃ m h', merge_configs base over h = (Ok m, h') ∧ h !! m = None ∧
          h' !! m = Some (merge_entries bd od).
Proof.
  intros Hb Ho Hsub.
  destruct (merge_configs_result h base over bd od) as (m & h' & Hrun & Hnew & Hm & _);
    [done..|].
  by exists m, h'.
Qed.

Lemma merge_entries_idem bd od : merge_entries (merge_entries bd od) od = merge_entries bd od.
Proof.
  unfold merge_entries. by rewrite (assoc_L (∪)), (idemp_L (∪)).
Qed.

Lemma merge_entries_text_to_speech bd od : merge_entries bd od !! tts_key = bd !! tts_key.
Proof.
  unfold merge_entries. rewrite lookup_union, map_lookup_filter.
  destruct (od !! tts_key) as [v|]; cbn; [|by rewrite (left_id_L None _)].
  rewrite option_guard_False by (intros [? _]; done).
  cbn. by rewrite (left_id_L None _).
Qed.

(** X5: a base whose [text_to_speech] is not a dictionary.  When the
    override has the key too, [merge_configs] raises the
    [AttributeError] of the missing [update]; the store has gained the
    copy of the base and is otherwise as before. *)
Theorem merge_rejects_scalar_text_to_speech h (base over : loc) bd od (v : val) :
  h !! base = Some bd → h !! over = Some od →
  bd !! tts_key = Some v → (∀ l, v ≠ VDict l) → is_Some (od !! tts_key) →
  merge_configs base over h =
    (Raise (no_attribute v "update"), <[fresh_loc h := bd]> h).
Proof.
  intros Hb Ho Hv Hnd [o Hot]. unfold merge_configs, alloc. cbv beta iota zeta.
  rewrite (deref_Some _ _ _ Hb), deref_insert_eq.
  rewrite deref_insert_ne by (apply not_eq_sym, fresh_loc_ne; eauto).
  rewrite (deref_Some _ _ _ Ho), Hv, Hot.
  destruct v; try done. by destruct (Hnd l).
Qed.

(** X6: an override whose [text_to_speech] is not iterable ([None], a
    boolean, a number) while the base has a sub-map.  [merge_configs]
    raises the [TypeError] of [update]; no object that was in the store
    has changed. *)
Theorem merge_rejects_non_iterable_override h (base over bt : loc) bd od (v : val) :
  h !! base = Some bd → h !! over = Some od →
  bd !! tts_key = Some (VDict bt) → od !! tts_key = Some v → not_iterable v = true →
  ∃ h', merge_configs base over h =
          (Raise (TypeError ("'" +:+ type_name v +:+ "' object is not iterable")), h') ∧
        ∀ l d, h !! l = Some d → h' !! l = Some d.
Proof.
  intros Hb Ho Hbt Hot Hv. unfold merge_configs, alloc. cbv beta iota zeta.
  rewrite (deref_Some _ _ _ Hb), deref_insert_eq.
  rewrite deref_insert_ne by (apply not_eq_sym, fresh_loc_ne; eauto).
  rewrite (deref_Some _ _ _ Ho), Hbt, Hot.
  set (h1 := <[fresh_loc h := bd]> h).
  assert (∀ l d, h !! l = Some d → h1 !! l = Some d) as H1.
  { intros l d Hl. unfold h1. rewrite lookup_insert_ne; [done|].
    apply not_eq_sym, fresh_loc_ne. eauto. }
  rewrite deref_insert_ne by (apply not_eq_sym, fresh_loc_ne; eauto).
  rewrite (deref_Some h1 over od) by eauto. rewrite Hot. cbn [from_option id].
  eexists. split.
  - destruct v; try discriminate; reflexivity.
  - intros l d Hl. rewrite lookup_insert_ne; [eauto|].
    apply not_eq_sym, fresh_loc_ne. eauto.
Qed.

(** X7: merging the same override again changes nothing.  For a base
    and an override such that, where both have a [text_to_speech] entry,
    both entries are sub-maps and the sub-map of the base is not the
    override object itself: the merge of the first result with the same
    override has the entries of the first result, and leaves every
    object of the store as the first merge left it. *)
Theorem merge_twice h (base over : loc) bd od :
  h !! base = Some bd → h !! over = Some od → sub_maps h over bd od →
  ∃ m1 h1 m2 h2,
    merge_configs base over h = (Ok m1, h1) ∧
    merge_configs m1 over h1 = (Ok m2, h2) ∧
    h2 !! m2 = h1 !! m1 ∧
    ∀ l, is_Some (h1 !! l) → h2 !! l = h1 !! l.
Proof.
  intros Hb Ho Hsub.
  destruct (bd !! tts_key) as [b|] eqn:Hbt; [destruct (od !! tts_key) as [o|] eqn:Hot|].
  - destruct (Hsub b o) as (bt & ot & -> & -> & [btd Hbts] & [otd Hots] & Hne); [done..|].
    destruct (merge_configs_sub_maps h base over bt ot bd od btd otd)
      as (h1 & Hrun1 & Hm1 & Hbt1 & Hfr1); [done..|].
    assert (h1 !! over = Some od) as Ho1 by (apply Hfr1; done).
    assert (∃ otd1, h1 !! ot = Some otd1 ∧ otd1 ∪ (otd ∪ btd) = otd ∪ btd)
      as (otd1 & Hot1 & Hunion).
    { destruct (decide (ot = bt)) as [->|Hob].
      - exists (otd ∪ btd). split; [done|]. apply (idemp_L (∪)).
      - exists otd. split; [by apply Hfr1|].
        by rewrite (assoc_L (∪)), (idemp_L (∪)). }
    rewrite merge_loop_entries in Hm1.
    destruct (merge_configs_sub_maps h1 (fresh_loc h) over bt ot (merge_entries bd od) od
                (otd ∪ btd) otd1) as (h2 & Hrun2 & Hm2 & Hbt2 & Hfr2); try done.
    { by rewrite merge_entries_text_to_speech. }
    exists (fresh_loc h), h1, (fresh_loc h1), h2.
    split; [done|]. split; [done|]. split.
    + by rewrite Hm2, Hm1, merge_loop_entries, merge_entries_idem.
    + intros l [d Hl]. destruct (decide (l = bt)) as [->|Hlb].
      * by rewrite Hbt2, Hbt1, Hunion.
      * rewrite Hl. by apply Hfr2.
  - assert (h !! fresh_loc h = None) as Hnew by apply fresh_loc_None.
    pose proof (merge_configs_no_clash h base over bd od Hb Ho (or_intror Hot)) as Hrun1.
    rewrite merge_loop_entries in Hrun1.
    set (h1 := <[fresh_loc h := merge_entries bd od]> h) in *.
    assert (h1 !! over = Some od) as Ho1.
    { unfold h1. rewrite lookup_insert_ne; [done|]. intros Heq. congruence. }
    pose proof (merge_configs_no_clash h1 (fresh_loc h) over (merge_entries bd od) od
                  (lookup_insert_eq _ _ _) Ho1 (or_intror Hot)) as Hrun2.
    rewrite merge_loop_entries, merge_entries_idem in Hrun2.
    eexists _, _, _, _. split; [exact Hrun1|]. split; [exact Hrun2|]. split.
    + rewrite lookup_insert_eq. unfold h1. by rewrite lookup_insert_eq.
    + intros l Hl. rewrite lookup_insert_ne; [done|].
      apply not_eq_sym, fresh_loc_ne. done.
  - assert (h !! fresh_loc h = None) as Hnew by apply fresh_loc_None.
    pose proof (merge_configs_no_clash h base over bd od Hb Ho (or_introl Hbt)) as Hrun1.
    rewrite merge_loop_entries in Hrun1.
    set (h1 := <[fresh_loc h := merge_entries bd od]> h) in *.
    assert (h1 !! over = Some od) as Ho1.
    { unfold h1. rewrite lookup_insert_ne; [done|]. intros Heq. congruence. }
    assert (merge_entries bd od !! tts_key = None) as Hbt1
      by (by rewrite merge_entries_text_to_speech).
    pose proof (merge_configs_no_clash h1 (fresh_loc h) over (merge_entries bd od) od
                  (lookup_insert_eq _ _ _) Ho1 (or_introl Hbt1)) as Hrun2.
    rewrite merge_loop_entries, merge_entries_idem in Hrun2.
    eexists _, _, _, _. split; [exact Hrun1|]. split; [exact Hrun2|]. split.
    + rewrite lookup_insert_eq. unfold h1. by rewrite lookup_insert_eq.
    + intros l Hl. rewrite lookup_insert_ne; [done|].
      apply not_eq_sym, fresh_loc_ne. done.
Qed.

End MergeMore.

(** * Further properties of the request handler *)

Section HandlerMore.
Context (P : platform).
Implicit Types (w : world (fs P)) (data : dict) (e : exn).

(** ** Credentials and failures *)

(** One credential step, whatever its outcome, leaves every other
    variable, the store and the files as they were. *)
Lemma set_credential_frame data (field var : string) w (r : outcome unit) w' :
  set_credential (P:=P) data field var w = (r, w') →
  w_heap w' = w_heap w ∧ w_files w' = w_files w ∧
  ∀ var', var' ≠ var → w_environ w' !! var' = w_environ w !! var'.
Proof.
  unfold set_credential, environ_setitem.
  destruct (truthy (w_heap w) (default VNone (data !! field))); [|by intros [= _ <-]].
  destruct (default VNone (data !! field)); try (by intros [= _ <-]).
  destruct (has_nul s); intros [= _ <-]; [done|]. cbn.
  split; [done|]. split; [done|]. intros var' Hne. by rewrite lookup_insert_ne.
Qed.

(** X8: the only environment variables that the preparation of a
    request can change are the three credential variables, whether the
    preparation goes through or raises. *)
Theorem prepare_touches_only_credentials data w (r : outcome gen_args) w1 (var : string) :
  prepare (P:=P) data w = (r, w1) →
  var ≠ "OPENAI_API_KEY" → var ≠ "GEMINI_API_KEY" → var ≠ "ELEVENLABS_API_KEY" →
  w_environ w1 !! var = w_environ w !! var.
Proof.
  intros Hrun Ho Hg He. unfold prepare, set_credentials, bind in Hrun.
  destruct (set_credential data "openai_key" "OPENAI_API_KEY" w) as [r1 wa] eqn:H1.
  apply set_credential_frame in H1 as (_ & _ & H1).
  destruct r1 as [u1|e1]; [|injection Hrun as _ <-; by apply H1].
  destruct (set_credential data "google_key" "GEMINI_API_KEY" wa) as [r2 wb] eqn:H2.
  apply set_credential_frame in H2 as (_ & _ & H2).
  destruct r2 as [u2|e2]; [|injection Hrun as _ <-; rewrite H2, H1; done].
  destruct (set_credential data "elevenlabs_key" "ELEVENLABS_API_KEY" wb) as [r3 wc] eqn:H3.
  apply set_credential_frame in H3 as (_ & _ & H3).
  destruct r3 as [u3|e3]; [|injection Hrun as _ <-; rewrite H3, H2, H1; done].
  pose proof (keeps_environ_configure P data wc) as Hc. rewrite Hrun in Hc. cbn in Hc.
  rewrite Hc, H3, H2, H1; done.
Qed.

(** X9: a credential that counts as true but is not a string.  The
    assignment to [os.environ] raises [TypeError]; the request fails
    with status 500 and that message before anything else is done: the
    state is unchanged and the generator is not called. *)
Theorem non_string_credential_is_500 data (rnd : list byte) w (v : val) :
  data !! "openai_key" = Some v → truthy (w_heap w) v = true → (∀ s, v ≠ VStr s) →
  generate_podcast_endpoint (P:=P) data rnd w =
    (Raise (HTTPException 500 ("str expected, not " +:+ type_name v)), w).
Proof.
  intros Hv Ht Hns.
  assert (set_credential (P:=P) data "openai_key" "OPENAI_API_KEY" w =
            (Raise (TypeError ("str expected, not " +:+ type_name v)), w)) as H1.
  { unfold set_credential, environ_setitem. rewrite Hv. cbn [from_option id]. rewrite Ht.
    destruct v; try done. by destruct (Hns s). }
  unfold generate_podcast_endpoint, generate_body, prepare, set_credentials.
  by rewrite (bind_raise P _ _ w _ w
                (bind_raise P _ _ w _ w (bind_raise P _ _ w _ w H1))).
Qed.

(** X10: a failure does not undo the credentials.  When the credentials
    were stored and a later step of the preparation raises, the request
    fails with status 500 and the environment still holds what the
    credential step stored: the variable of a provider whose credential
    the request gave is that credential. *)
Theorem credentials_survive_failure data (rnd : list byte) w wc e w1 (s : string) :
  data !! "elevenlabs_key" = Some (VStr s) → s ≠ "" →
  set_credentials (P:=P) data w = (Ok (), wc) →
  configure data wc = (Raise e, w1) →
  generate_podcast_endpoint data rnd w = (Raise (HTTPException 500 (str_exn P e)), w1) ∧
  w_environ w1 = w_environ wc ∧
  w_environ w1 !! "ELEVENLABS_API_KEY" = Some s.
Proof.
  intros Hs Hne Hcred Hconf.
  pose proof (keeps_environ_configure P data wc) as Henv.
  rewrite Hconf in Henv. cbn in Henv.
  split; [|split; [done|]].
  - unfold generate_podcast_endpoint, generate_body, prepare.
    rewrite (bind_raise P _ _ w e w1); [done|].
    by rewrite (bind_ok P _ _ _ _ _ Hcred).
  - rewrite Henv. unfold set_credentials in Hcred.
    apply bind_ok_inv in Hcred as (u1 & wa & H1 & Hcred).
    apply bind_ok_inv in Hcred as (u2 & wb & H2 & H3).
    apply set_credential_ok_inv in H3 as (_ & _ & _ & H3).
    rewrite Hs in H3. cbn in H3.
    destruct (String.eqb s "") eqn:Heq; [by apply String.eqb_eq in Heq|].
    cbn in H3. destruct H3 as (s' & [= <-] & H3). done.
Qed.

(** X11: a configuration document that is not a mapping (an empty YAML
    file gives [None]).  [load_base_config] hands it on as it is, and
    every request whose credentials go through fails with status 500 on
    the first [base_config.get]. *)
Theorem non_mapping_config_is_500 data (rnd : list byte) w wc (v : val) (h : heap) :
  set_credentials (P:=P) data w = (Ok (), wc) →
  safe_load_config P config_path (w_files w) (w_heap w) = (Ok v, h) →
  (∀ l, v ≠ VDict l) →
  generate_podcast_endpoint data rnd w =
    (Raise (HTTPException 500
              ("'" +:+ type_name v +:+ "' object has no attribute 'get'")),
     World h (w_environ wc) (w_files wc)).
Proof.
  intros Hcred Hload Hnd.
  destruct (set_credentials_ok_inv P _ _ _ _ Hcred) as [Hh Hf].
  assert (load_base_config (P:=P) wc = (Ok v, World h (w_environ wc) (w_files wc))) as Hl.
  { unfold load_base_config. by rewrite Hh, Hf, Hload. }
  unfold generate_podcast_endpoint, generate_body, prepare.
  rewrite (bind_raise P _ _ w (no_attribute v "get") (World h (w_environ wc) (w_files wc)));
    [done|].
  rewrite (bind_ok P _ _ _ _ _ Hcred). unfold configure.
  rewrite (bind_ok P _ _ _ _ _ Hl).
  apply bind_raise. unfold resolve_tts_model, data_get. apply bind_raise, bind_raise.
  destruct v; try done. by destruct (Hnd l).
Qed.

End HandlerMore.

(** * The effective configuration *)

Section Configure.
Context (P : platform).
Implicit Types (w : world (fs P)) (data : dict) (e : exn) (h : heap).

(** ** Steps read backwards *)

Lemma new_dict_run (d : dict) w :
  new_dict (P:=P) d w =
    (Ok (VDict (fresh_loc (w_heap w))),
     World (<[fresh_loc (w_heap w) := d]> (w_heap w)) (w_environ w) (w_files w)).
Proof. reflexivity. Qed.

Lemma ret_ok_inv {A : Type} (a b : A) w w' : ret (P:=P) a w = (Ok b, w') → b = a ∧ w' = w.
Proof. unfold ret. by intros [= -> ->]. Qed.

(** [obj.get(key, default)] gave a result: [obj] is a dictionary, the
    default was evaluated, and the result is the entry or the default. *)
Lemma py_get_ok_inv (obj key : val) (dflt : M P val) w (v : val) w' :
  py_get obj key dflt w = (Ok v, w') →
  ∃ l d, obj = VDict l ∧ dflt w = (Ok d, w') ∧
         v = match key with
             | VStr k => default d (deref (w_heap w') l !! k)
             | _ => d
             end.
Proof.
  unfold py_get. destruct obj; try discriminate. intros Hrun.
  apply bind_ok_inv in Hrun as (d & w1 & Hd & Hrun).
  exists l, d. destruct key; try discriminate;
    apply ret_ok_inv in Hrun as [-> ->]; done.
Qed.

Lemma data_get_ok_inv data (key : string) (dflt : M P val) w (v : val) w' :
  data_get data key dflt w = (Ok v, w') →
  ∃ d, dflt w = (Ok d, w') ∧ v = default d (data !! key).
Proof.
  unfold data_get. intros Hrun.
  apply bind_ok_inv in Hrun as (d & w1 & Hd & Hrun).
  apply ret_ok_inv in Hrun as [-> ->]. eauto.
Qed.

(** [obj.get(key, {})] gave a result: [obj] is a dictionary, nothing
    that was in the store has changed, and if the result is a dictionary
    its entries are those the entry of [obj] refers to, none if [obj]
    has no such entry. *)
Lemma py_get_or_empty_ok_inv (obj key : val) w (v : val) w' :
  py_get obj key (new_dict ∅) w = (Ok v, w') →
  ∃ l, obj = VDict l ∧
       (∀ l', deref (w_heap w') l' = deref (w_heap w) l') ∧
       (∀ l' d, w_heap w !! l' = Some d → w_heap w' !! l' = Some d) ∧
       w_environ w' = w_environ w ∧ w_files w' = w_files w ∧
       ∀ t, v = VDict t →
            deref (w_heap w') t =
              match key with
              | VStr k => entries_at (w_heap w) (deref (w_heap w) l !! k)
              | _ => ∅
              end.
Proof.
  intros Hrun. apply py_get_ok_inv in Hrun as (l & d & -> & Hd & ->).
  rewrite new_dict_run in Hd. injection Hd as <- <-. cbn [w_heap w_environ w_files].
  exists l. split; [done|]. split; [intros; apply deref_alloc_empty|].
  split.
  { intros l' d Hl. rewrite lookup_insert_ne; [done|].
    apply not_eq_sym, fresh_loc_ne. eauto. }
  split; [done|]. split; [done|]. intros t.
  rewrite !deref_alloc_empty.
  assert (deref (w_heap w) (fresh_loc (w_heap w)) = ∅) as Hfresh.
  { unfold deref. by rewrite fresh_loc_None. }
  destruct key; try (intros [= <-]; exact Hfresh).
  destruct (deref (w_heap w) l !! s) as [x|]; cbn.
  - by intros ->.
  - by intros [= <-].
Qed.

Lemma data_get_or_empty_ok_inv data (k : string) w (v : val) w' :
  data_get data k (new_dict ∅) w = (Ok v, w') →
  (∀ l', deref (w_heap w') l' = deref (w_heap w) l') ∧
  (∀ l' d, w_heap w !! l' = Some d → w_heap w' !! l' = Some d) ∧
  w_environ w' = w_environ w ∧ w_files w' = w_files w ∧
  ∀ t, v = VDict t → deref (w_heap w') t = entries_at (w_heap w) (data !! k).
Proof.
  intros Hrun. apply data_get_ok_inv in Hrun as (d & Hd & ->).
  rewrite new_dict_run in Hd. injection Hd as <- <-. cbn [w_heap w_environ w_files].
  split; [intros; apply deref_alloc_empty|].
  split.
  { intros l' d Hl. rewrite lookup_insert_ne; [done|].
    apply not_eq_sym, fresh_loc_ne. eauto. }
  split; [done|]. split; [done|]. intros t.
  rewrite !deref_alloc_empty.
  destruct (data !! k) as [x|]; cbn.
  - by intros ->.
  - intros [= <-]. unfold deref. by rewrite fresh_loc_None.
Qed.

(** Line 86 read backwards. *)
Lemma resolve_tts_model_ok_inv data (base : val) w (tm : val) w' :
  resolve_tts_model data base w = (Ok tm, w') →
  ∃ b, base = VDict b ∧
       (∀ l', deref (w_heap w') l' = deref (w_heap w) l') ∧
       (∀ l' d, w_heap w !! l' = Some d → w_heap w' !! l' = Some d) ∧
       w_environ w' = w_environ w ∧ w_files w' = w_files w ∧
       (deref (w_heap w) b !! tts_key = None ∨
        ∃ t, deref (w_heap w) b !! tts_key = Some (VDict t)) ∧
       tm = tts_model_spec data (deref (w_heap w) b) (w_heap w).
Proof.
  unfold resolve_tts_model. intros Hrun.
  apply data_get_ok_inv in Hrun as (d & Hrun & ->).
  apply bind_ok_inv in Hrun as (tts & w1 & Htts & Hrun).
  apply py_get_ok_inv in Hrun as (t & d' & -> & Hd & ->).
  apply ret_ok_inv in Hd as [-> ->].
  pose proof Htts as Hshape.
  apply py_get_or_empty_ok_inv in Htts as (b & -> & Hderef & Hgrow & Henv & Hfiles & Hent).
  exists b. repeat (split; [done|]).
  apply py_get_ok_inv in Hshape as (b' & d & [= <-] & Hd & Hval).
  rewrite new_dict_run in Hd. injection Hd as <- Hw1.
  rewrite Hderef in Hval. unfold tts_model_spec.
  rewrite (Hent t eq_refl).
  destruct (deref (w_heap w) b !! tts_key) as [x|] eqn:Hx; cbn in *.
  - subst x. split; [eauto|]. done.
  - split; [by left|]. by rewrite lookup_empty.
Qed.

(** The display of [user_config] read backwards: the three mappings it
    reads are dictionaries, the creativity converts, and the store gains
    three objects: the voices, the [text_to_speech] override and
    [user_config]. *)
Lemma build_user_config_ok_inv data (b : loc) (tm tbc voices dv : val) w (u : loc) w' :
  build_user_config data (VDict b) tm tbc voices dv w = (Ok u, w') →
  ∃ bits tl vl dl,
    tbc = VDict tl ∧ voices = VDict vl ∧ dv = VDict dl ∧
    py_float P (requested data (deref (w_heap w) b) "creativity" "creativity"
                  (VFloat float_0_7)) = Ok bits ∧
    let h := w_heap w in
    let voice := λ role : string,
      default (default VNone (deref h dl !! role)) (deref h vl !! role) in
    let dvl := fresh_loc h in
    let h1 := <[dvl := {[ "question" := voice "question"; "answer" := voice "answer" ]}]> h in
    let ttsl := fresh_loc h1 in
    let h2 := <[ttsl := {[ "default_tts_model" := tm;
                           "model" := default VNone (deref h tl !! "model");
                           "default_voices" := VDict dvl ]}]> h1 in
    u = fresh_loc h2 ∧
    w' = World (<[u := override_entries data (deref h b) bits (VDict ttsl)]> h2)
           (w_environ w) (w_files w).
Proof.
  unfold build_user_config, option_of, data_get, py_get, bind, ret, lift,
    new_dict, new_dict_ref, on_heap, alloc.
  cbv beta iota zeta. fold (requested data (deref (w_heap w) b)).
  destruct (py_float P _) as [bits|e0] eqn:Hf; [|discriminate].
  cbv beta iota zeta.
  destruct tbc as [| | | | | |tl]; try discriminate.
  destruct voices as [| | | | | |vl]; try discriminate.
  destruct dv as [| | | | | |dl]; try discriminate.
  cbv beta iota zeta. cbn [w_heap w_environ w_files].
  intros [= <- <-]. exists bits, tl, vl, dl. done.
Qed.

Lemma entries_at_ext h h' (v : option val) :
  (∀ l, deref h' l = deref h l) → entries_at h' v = entries_at h v.
Proof. intros Hd. destruct v as [[]|]; cbn; auto. Qed.

Lemma engine_settings_ext h h' (ttsd : dict) (tm : val) :
  (∀ l, deref h' l = deref h l) → engine_settings h' ttsd tm = engine_settings h ttsd tm.
Proof. intros Hd. destruct tm; cbn; auto using entries_at_ext. Qed.

(** Lines 83-91 read backwards: the base configuration is a dictionary
    [b], nothing in the store has changed, and the three mappings looked
    up hold what the base and the request say. *)
Lemma lookups_ok_inv data (base : val) w0 (tm : val) wa (tbc : val) wb
    (voices : val) wc (dv : val) wd :
  resolve_tts_model data base w0 = (Ok tm, wa) →
  bind (py_get base (VStr tts_key) (new_dict ∅))
       (λ tts, py_get tts tm (new_dict ∅)) wa = (Ok tbc, wb) →
  data_get data "voices" (new_dict ∅) wb = (Ok voices, wc) →
  py_get tbc (VStr "default_voices") (new_dict ∅) wc = (Ok dv, wd) →
  ∃ b tl, base = VDict b ∧ tbc = VDict tl ∧
    let h0 := w_heap w0 in
    let bd := deref h0 b in
    let ttsd := entries_at h0 (bd !! tts_key) in
    (∀ l, deref (w_heap wd) l = deref h0 l) ∧
    (∀ l d, h0 !! l = Some d → w_heap wd !! l = Some d) ∧
    w_environ wd = w_environ w0 ∧ w_files wd = w_files w0 ∧
    (bd !! tts_key = None ∨ ∃ t, bd !! tts_key = Some (VDict t)) ∧
    tm = tts_model_spec data bd h0 ∧
    deref (w_heap wd) tl = engine_settings h0 ttsd tm ∧
    (∀ vl, voices = VDict vl → deref (w_heap wd) vl = entries_at h0 (data !! "voices")) ∧
    (∀ dl, dv = VDict dl →
           deref (w_heap wd) dl =
             entries_at h0 (engine_settings h0 ttsd tm !! "default_voices")).
Proof.
  intros Hres Htbc Hv Hdv.
  apply resolve_tts_model_ok_inv in Hres
    as (b & -> & Hda & Hga & Hea & Hfa & Hshape & Htm).
  apply bind_ok_inv in Htbc as (tts & wa' & Htts & Htbc).
  apply py_get_or_empty_ok_inv in Htts as (b' & [= <-] & Hda' & Hga' & Hea' & Hfa' & Htts).
  apply py_get_or_empty_ok_inv in Htbc as (t & -> & Hdb & Hgb & Heb & Hfb & Htbc).
  apply data_get_or_empty_ok_inv in Hv as (Hdc & Hgc & Hec & Hfc & Hv).
  apply py_get_or_empty_ok_inv in Hdv as (tl & -> & Hdd & Hgd & Hed & Hfd & Hdv).
  exists b, tl. split; [done|]. split; [done|]. cbv zeta.
  assert (∀ l, deref (w_heap wb) l = deref (w_heap w0) l) as Hb0.
  { intros l. by rewrite Hdb, Hda', Hda. }
  assert (∀ l, deref (w_heap wc) l = deref (w_heap w0) l) as Hc0.
  { intros l. by rewrite Hdc, Hb0. }
  assert (deref (w_heap wb) tl =
            engine_settings (w_heap w0)
              (entries_at (w_heap w0) (deref (w_heap w0) b !! tts_key)) tm) as Hengine.
  { rewrite (Htbc tl eq_refl), (Htts t eq_refl), !Hda.
    rewrite (entries_at_ext (w_heap w0) (w_heap wa)) by done.
    destruct tm; try done. cbn.
    apply entries_at_ext. intros l. by rewrite Hda', Hda. }
  split; [intros l; by rewrite Hdd, Hc0|].
  split; [intros l d Hl; by apply Hgd, Hgc, Hgb, Hga', Hga|].
  split; [congruence|]. split; [congruence|].
  split; [done|]. split; [done|].
  split; [by rewrite Hdd, Hdc, Hengine|].
  split.
  - intros vl ->. rewrite Hdd, (Hv vl eq_refl). by apply entries_at_ext.
  - intros dl ->. rewrite (Hdv dl eq_refl), Hdc, Hengine. by apply entries_at_ext.
Qed.

(** A run of lines 82-124 that went through, read backwards: the base
    configuration [b] was loaded; the store [hm] that [merge_configs]
    ran in holds everything the store [h0] after the load held, and
    three new objects: the voices at [dvl], the [text_to_speech]
    override at [ttsl] and [user_config] at [u]. *)
Lemma configure_ok_inv data w (args : gen_args) w1 :
  configure (P:=P) data w = (Ok args, w1) →
  ∃ b w0 bits dvl ttsl u m hm,
    load_base_config w = (Ok (VDict b), w0) ∧
    let h0 := w_heap w0 in
    let bd := deref h0 b in
    let ttsd := entries_at h0 (bd !! tts_key) in
    let tm := tts_model_spec data bd h0 in
    let engine := engine_settings h0 ttsd tm in
    (bd !! tts_key = None ∨ ∃ t, bd !! tts_key = Some (VDict t)) ∧
    py_float P (requested data bd "creativity" "creativity" (VFloat float_0_7)) = Ok bits ∧
    (∀ l d, h0 !! l = Some d → hm !! l = Some d) ∧
    h0 !! dvl = None ∧ h0 !! ttsl = None ∧ h0 !! u = None ∧
    hm !! dvl = Some {[ "question" := voice_spec h0 data ttsd tm "question";
                        "answer" := voice_spec h0 data ttsd tm "answer" ]} ∧
    hm !! ttsl = Some {[ "default_tts_model" := tm;
                         "model" := default VNone (engine !! "model");
                         "default_voices" := VDict dvl ]} ∧
    hm !! u = Some (override_entries data bd bits (VDict ttsl)) ∧
    merge_configs b u hm = (Ok m, w_heap w1) ∧
    w_environ w1 = w_environ w0 ∧ w_files w1 = w_files w0 ∧
    args = GenArgs (default (VList []) (data !! "urls")) (VDict m) tm
             (truthy (w_heap w1) (default (VBool false) (data !! "is_long_form"))).
Proof.
  unfold configure. intros Hrun.
  apply bind_ok_inv in Hrun as (base & w0 & Hload & Hrun).
  apply bind_ok_inv in Hrun as (tm & wa & Hres & Hrun).
  apply bind_ok_inv in Hrun as (tbc & wb & Htbc & Hrun).
  apply bind_ok_inv in Hrun as (voices & wc & Hv & Hrun).
  apply bind_ok_inv in Hrun as (dv & wd & Hdv & Hrun).
  apply bind_ok_inv in Hrun as (u & we & Hbuild & Hrun).
  apply bind_ok_inv in Hrun as (cc & wf & Hmerge & Hrun).
  apply bind_ok_inv in Hrun as (urls0 & wg & Hurls & Hrun).
  apply bind_ok_inv in Hrun as (ilf & wh & Hilf & Hrun).
  apply bind_ok_inv in Hrun as (lf & wi & Hlf & Hrun).
  apply ret_ok_inv in Hrun as [-> ->].
  apply data_get_ok_inv in Hurls as (d1 & Hd1 & ->). apply ret_ok_inv in Hd1 as [-> ->].
  apply data_get_ok_inv in Hilf as (d2 & Hd2 & ->). apply ret_ok_inv in Hd2 as [-> ->].
  unfold py_bool in Hlf. injection Hlf as <- <-.
  destruct (lookups_ok_inv _ _ _ _ _ _ _ _ _ _ _ Hres Htbc Hv Hdv)
    as (b & tl & -> & -> & Hderef & Hgrow & Henv & Hfiles & Hshape & Htm & Heng & Hvoices & Hdvs).
  apply build_user_config_ok_inv in Hbuild
    as (bits & tl' & vl & dl & [= <-] & -> & -> & Hfloat & Hu & Hwe).
  cbv zeta in Hu, Hwe.
  unfold call_merge_configs, on_heap in Hmerge.
  destruct (merge_configs b u (w_heap we)) as [[m|e0] hf] eqn:Hm; [|discriminate].
  injection Hmerge as <- <-. cbn [w_heap w_environ w_files].
  rewrite (Hvoices vl eq_refl), (Hdvs dl eq_refl), Heng in Hu, Hwe.
  rewrite (Hderef b) in Hfloat, Hwe.
  set (h0 := w_heap w0) in *. set (hd := w_heap wd) in *.
  set (bd := deref h0 b) in *.
  set (ttsd := entries_at h0 (bd !! tts_key)) in *.
  set (engine := engine_settings h0 ttsd tm) in *.
  set (dvl := fresh_loc hd) in *.
  set (h1 := <[dvl := _]> hd) in *.
  set (ttsl := fresh_loc h1) in *.
  set (h2 := <[ttsl := _]> h1) in *.
  assert (∀ l d, hd !! l = Some d → h1 !! l = Some d) as H1.
  { intros l d Hl. unfold h1. rewrite lookup_insert_ne; [done|].
    apply not_eq_sym, fresh_loc_ne. eauto. }
  assert (∀ l d, h1 !! l = Some d → h2 !! l = Some d) as H2.
  { intros l d Hl. unfold h2. rewrite lookup_insert_ne; [done|].
    apply not_eq_sym, fresh_loc_ne. eauto. }
  assert (∀ l d, h2 !! l = Some d → w_heap we !! l = Some d) as H3.
  { intros l d Hl. rewrite Hwe. cbn [w_heap]. rewrite lookup_insert_ne; [done|].
    rewrite Hu. apply not_eq_sym, fresh_loc_ne. eauto. }
  assert (∀ (hx : heap) l, (∀ l' d, h0 !! l' = Some d → hx !! l' = Some d) →
            hx !! l = None → h0 !! l = None) as Hnone.
  { intros hx l Hsub Hl. destruct (h0 !! l) as [d|] eqn:Hd; [|done].
    apply Hsub in Hd. congruence. }
  exists b, w0, bits, dvl, ttsl, u, m, (w_heap we).
  split; [done|]. cbv zeta. fold h0 bd ttsd. rewrite <- Htm. fold engine.
  split; [done|]. split; [done|].
  split; [by auto|].
  split; [apply (Hnone hd); [done | apply fresh_loc_None]|].
  split; [apply (Hnone h1); [by auto | apply fresh_loc_None]|].
  split; [apply (Hnone h2); [by auto | rewrite Hu; apply fresh_loc_None]|].
  split; [apply H3, H2; unfold h1; by rewrite lookup_insert_eq|].
  split; [apply H3; unfold h2; by rewrite lookup_insert_eq|].
  split; [by rewrite Hwe; cbn [w_heap]; rewrite lookup_insert_eq|].
  split; [done|].
  split; [rewrite Hwe; cbn [w_environ]; congruence|].
  split; [rewrite Hwe; cbn [w_files]; congruence|].
  done.
Qed.

Lemma override_entries_text_to_speech data (bd : dict) (bits : Z) (tts : val) :
  override_entries data bd bits tts !! tts_key = Some tts.
Proof. by vm_compute. Qed.

Lemma override_entries_option data (bd : dict) (bits : Z) (tts : val)
    (field key : string) (dflt : val) :
  (field, key, dflt) ∈ option_table →
  key ≠ tts_key ∧
  override_entries data bd bits tts !! key = Some (requested data bd field key dflt).
Proof.
  unfold option_table. intros Hin.
  repeat (apply elem_of_cons in Hin as [[= -> -> ->] | Hin]);
    try (split; [done | by vm_compute]).
  by apply elem_of_nil in Hin.
Qed.

Lemma override_entries_creativity data (bd : dict) (bits : Z) (tts : val) :
  override_entries data bd bits tts !! "creativity" = Some (VFloat bits).
Proof. by vm_compute. Qed.

(** The store after a run of lines 82-124 that went through, for a base
    configuration [b] with entries [bd] whose [text_to_speech], if any,
    is a dictionary of the store. *)
Lemma configure_result data w (b : loc) w0 (bd : dict) (args : gen_args) w1 :
  load_base_config (P:=P) w = (Ok (VDict b), w0) → w_heap w0 !! b = Some bd →
  (∀ t, bd !! tts_key = Some (VDict t) → is_Some (w_heap w0 !! t)) →
  configure data w = (Ok args, w1) →
  ∃ bits dvl ttsl m,
    let h0 := w_heap w0 in
    let ttsd := entries_at h0 (bd !! tts_key) in
    let tm := tts_model_spec data bd h0 in
    let over : dict :=
      {[ "default_tts_model" := tm;
         "model" := default VNone (engine_settings h0 ttsd tm !! "model");
         "default_voices" := VDict dvl ]} in
    args = GenArgs (default (VList []) (data !! "urls")) (VDict m) tm
             (truthy (w_heap w1) (default (VBool false) (data !! "is_long_form"))) ∧
    py_float P (requested data bd "creativity" "creativity" (VFloat float_0_7)) = Ok bits ∧
    h0 !! dvl = None ∧
    w_heap w1 !! m =
      Some (map_fold merge_step bd (override_entries data bd bits (VDict ttsl))) ∧
    w_heap w1 !! dvl = Some {[ "question" := voice_spec h0 data ttsd tm "question";
                               "answer" := voice_spec h0 data ttsd tm "answer" ]} ∧
    (bd !! tts_key = None ∨ ∃ t, bd !! tts_key = Some (VDict t)) ∧
    ∀ bt btd, bd !! tts_key = Some (VDict bt) → h0 !! bt = Some btd →
              w_heap w1 !! bt = Some (over ∪ btd).
Proof.
  intros Hload Hb Hclosed Hrun.
  apply configure_ok_inv in Hrun
    as (b' & w0' & bits & dvl & ttsl & u & m & hm & Hload' & Hinv).
  rewrite Hload in Hload'. injection Hload' as <- <-.
  cbv zeta in Hinv. rewrite (deref_Some _ _ _ Hb) in Hinv.
  destruct Hinv as (Hshape & Hfloat & Hgrow & Hdvl0 & Httsl0 & Hu0 & Hdvl & Httsl & Hu
                    & Hmerge & _ & _ & Hargs).
  exists bits, dvl, ttsl, m. cbv zeta.
  split; [done|]. split; [done|]. split; [done|].
  assert (hm !! b = Some bd) as Hbm by auto.
  destruct Hshape as [Hn | [t Ht]].
  - rewrite (merge_configs_no_clash hm b u bd _ Hbm Hu (or_introl Hn)) in Hmerge.
    injection Hmerge as <- <-.
    split; [apply lookup_insert_eq|]. split.
    + rewrite lookup_insert_ne; [done|]. apply not_eq_sym, fresh_loc_ne. eauto.
    + split; [by left|]. intros bt btd Hbt. congruence.
  - destruct (Hclosed t Ht) as [btd Hbtd].
    destruct (merge_configs_sub_maps hm b u t ttsl bd _ btd _ Hbm Hu Ht
                (override_entries_text_to_speech _ _ _ _) (Hgrow _ _ Hbtd) Httsl)
      as (h' & Hrun & Hm & Hbt & Hframe).
    { intros ->. congruence. }
    rewrite Hrun in Hmerge. injection Hmerge as <- <-.
    split; [done|]. split.
    + apply Hframe; [done|]. intros ->. congruence.
    + split; [eauto|]. intros bt btd' Hbt' Hbtd'.
      rewrite Ht in Hbt'. injection Hbt' as <-.
      rewrite Hbtd in Hbtd'. injection Hbtd' as <-.
      rewrite Ht in Hbt. cbn [entries_at] in Hbt. rewrite (deref_Some _ _ _ Hbtd) in Hbt.
      rewrite Ht. cbn [entries_at]. by rewrite (deref_Some _ _ _ Hbtd).
Qed.

Lemma merge_configs_ok_inv (b u m : loc) h h' :
  merge_configs b u h = (Ok m, h') → is_Some (h' !! m).
Proof.
  unfold merge_configs, alloc. cbv beta iota zeta.
  destruct (match deref _ _ !! tts_key with Some _ => _ | None => _ end) as [[[]|e] h3];
    [|discriminate].
  intros [= <- <-]. rewrite lookup_insert_eq. eauto.
Qed.

(** X12: what the generator is called with.  [urls] is the request's
    [urls] as it is, the empty list when the request has none;
    [longform] is the truth value of the request's [is_long_form], false
    when the request has none; the configuration is a dictionary of the
    store. *)
Theorem generator_arguments data w (args : gen_args) w1 :
  prepare (P:=P) data w = (Ok args, w1) →
  urls args = default (VList []) (data !! "urls") ∧
  longform args = truthy (w_heap w1) (default (VBool false) (data !! "is_long_form")) ∧
  ∃ m d, conversation_config args = VDict m ∧ w_heap w1 !! m = Some d.
Proof.
  unfold prepare. intros Hrun.
  apply bind_ok_inv in Hrun as (u0 & wc & _ & Hrun).
  apply configure_ok_inv in Hrun
    as (b & w0 & bits & dvl & ttsl & u & m & hm & _ & Hinv).
  cbv zeta in Hinv.
  destruct Hinv as (_ & _ & _ & _ & _ & _ & _ & _ & _ & Hmerge & _ & _ & ->).
  split; [done|]. split; [done|].
  destruct (merge_configs_ok_inv _ _ _ _ _ Hmerge) as [d Hd]. by exists m, d.
Qed.

(** X13: the options of the effective configuration.  When lines 82-124
    go through, the configuration handed to the generator holds, for
    each option of the handler, the requested value
    [data.get(field, base_config.get(key, default))] unless that is
    [None], and then the entry of the base, if it has one; and it holds
    the creativity as a float. *)
Theorem effective_options data w (b : loc) w0 (bd : dict) (args : gen_args) w1 :
  load_base_config (P:=P) w = (Ok (VDict b), w0) → w_heap w0 !! b = Some bd →
  (∀ t, bd !! tts_key = Some (VDict t) → is_Some (w_heap w0 !! t)) →
  configure data w = (Ok args, w1) →
  ∃ m md, conversation_config args = VDict m ∧ w_heap w1 !! m = Some md ∧
    (∀ field key dflt, (field, key, dflt) ∈ option_table →
       md !! key = effective_option data bd field key dflt) ∧
    ∃ bits, py_float P (requested data bd "creativity" "creativity" (VFloat float_0_7))
              = Ok bits ∧
            md !! "creativity" = Some (VFloat bits).
Proof.
  intros Hload Hb Hclosed Hrun.
  destruct (configure_result data w b w0 bd args w1 Hload Hb Hclosed Hrun)
    as (bits & dvl & ttsl & m & Hres).
  cbv zeta in Hres. destruct Hres as (-> & Hfloat & _ & Hm & _).
  eexists m, _. split; [done|]. split; [exact Hm|]. split.
  - intros field key dflt Hin.
    destruct (override_entries_option data bd bits (VDict ttsl) field key dflt Hin)
      as [Hne Hlook].
    rewrite merge_loop_lookup, Hlook. unfold effective_option.
    by destruct (decide (key ≠ tts_key)).
  - exists bits. split; [done|].
    by rewrite merge_loop_lookup, override_entries_creativity.
Qed.

(** X14: the [text_to_speech] section of the effective configuration.
    When the base has a [text_to_speech] sub-map, the configuration
    handed to the generator refers to that same object, in which
    [default_tts_model] is now the engine handed to the generator,
    [model] is the model of that engine's settings ([None] if it has
    none), and every other entry but [default_voices] is as the base
    had it. *)
Theorem effective_text_to_speech data w (b bt : loc) w0 (bd btd : dict)
    (args : gen_args) w1 :
  load_base_config (P:=P) w = (Ok (VDict b), w0) → w_heap w0 !! b = Some bd →
  bd !! tts_key = Some (VDict bt) → w_heap w0 !! bt = Some btd →
  configure data w = (Ok args, w1) →
  ∃ m md btd',
    conversation_config args = VDict m ∧ w_heap w1 !! m = Some md ∧
    md !! tts_key = Some (VDict bt) ∧ w_heap w1 !! bt = Some btd' ∧
    btd' !! "default_tts_model" = Some (tts_model args) ∧
    btd' !! "model" =
      Some (default VNone (engine_settings (w_heap w0) btd (tts_model args) !! "model")) ∧
    ∀ k, k ≠ "default_tts_model" → k ≠ "model" → k ≠ "default_voices" →
         btd' !! k = btd !! k.
Proof.
  intros Hload Hb Hbt Hbtd Hrun.
  destruct (configure_result data w b w0 bd args w1 Hload Hb) as
    (bits & dvl & ttsl & m & Hres); [|done|].
  { intros t Ht. rewrite Hbt in Ht. injection Ht as <-. eauto. }
  cbv zeta in Hres. destruct Hres as (-> & _ & _ & Hm & _ & _ & Hsub).
  specialize (Hsub bt btd Hbt Hbtd).
  rewrite Hbt in Hsub. cbn [entries_at] in Hsub. rewrite (deref_Some _ _ _ Hbtd) in Hsub.
  eexists m, _, _. split; [done|]. split; [exact Hm|].
  split.
  { rewrite merge_loop_lookup, override_entries_text_to_speech.
    by destruct (decide (tts_key ≠ tts_key)). }
  split; [exact Hsub|]. cbn [tts_model].
  split; [by rewrite lookup_union, lookup_insert_eq, union_Some_l|].
  split.
  { rewrite lookup_union, lookup_insert_ne by done.
    by rewrite lookup_insert_eq, union_Some_l. }
  intros k H1 H2 H3.
  rewrite lookup_union, !lookup_insert_ne, lookup_singleton_ne by done.
  by rewrite (left_id_L None _).
Qed.

(** X15: voice fallback.  When the base has a [text_to_speech] sub-map,
    its [default_voices] in the effective configuration is a new
    dictionary holding, for each of the two roles, the request's voice,
    else the default voice of the resolved engine in the base, else
    [None]. *)
Theorem effective_voices data w (b bt : loc) w0 (bd btd : dict) (args : gen_args) w1 :
  load_base_config (P:=P) w = (Ok (VDict b), w0) → w_heap w0 !! b = Some bd →
  bd !! tts_key = Some (VDict bt) → w_heap w0 !! bt = Some btd →
  configure data w = (Ok args, w1) →
  ∃ btd' dvl,
    w_heap w1 !! bt = Some btd' ∧
    btd' !! "default_voices" = Some (VDict dvl) ∧ w_heap w0 !! dvl = None ∧
    w_heap w1 !! dvl =
      Some {[ "question" := voice_spec (w_heap w0) data btd (tts_model args) "question";
              "answer" := voice_spec (w_heap w0) data btd (tts_model args) "answer" ]}.
Proof.
  intros Hload Hb Hbt Hbtd Hrun.
  destruct (configure_result data w b w0 bd args w1 Hload Hb) as
    (bits & dvl & ttsl & m & Hres); [|done|].
  { intros t Ht. rewrite Hbt in Ht. injection Ht as <-. eauto. }
  cbv zeta in Hres. destruct Hres as (-> & _ & Hnew & _ & Hdvl & _ & Hsub).
  specialize (Hsub bt btd Hbt Hbtd).
  rewrite Hbt in Hsub, Hdvl. cbn [entries_at] in Hsub, Hdvl.
  rewrite (deref_Some _ _ _ Hbtd) in Hsub, Hdvl.
  eexists _, dvl. split; [exact Hsub|]. split; [|done].
  rewrite lookup_union, !lookup_insert_ne by done.
  by rewrite lookup_singleton_eq, union_Some_l.
Qed.

(** X16: no base configuration.  When the configuration file cannot be
    read or parsed and lines 82-124 go through, the engine handed to the
    generator is the request's [tts_model], else "openai"; the
    configuration holds, for each option, the request's value, else the
    literal default, and nothing when that is [None]; and it has no
    [text_to_speech] entry. *)
Theorem configuration_without_base data w e (h : heap) (args : gen_args) w1 :
  safe_load_config P config_path (w_files w) (w_heap w) = (Raise e, h) →
  configure (P:=P) data w = (Ok args, w1) →
  tts_model args = default (VStr "openai") (data !! "tts_model") ∧
  ∃ m md, conversation_config args = VDict m ∧ w_heap w1 !! m = Some md ∧
    md !! tts_key = None ∧
    ∀ field key dflt, (field, key, dflt) ∈ option_table →
      md !! key = (if is_not_None (default dflt (data !! field))
                   then Some (default dflt (data !! field)) else None).
Proof.
  intros Hfail Hrun.
  assert (load_base_config (P:=P) w =
            (Ok (VDict (fresh_loc h)),
             World (<[fresh_loc h := ∅]> h) (w_environ w) (w_files w))) as Hload.
  { unfold load_base_config. by rewrite Hfail. }
  destruct (configure_result data w _ _ ∅ args w1 Hload) as
    (bits & dvl & ttsl & m & Hres); [apply lookup_insert_eq| |done|].
  { intros t Ht. by rewrite lookup_empty in Ht. }
  cbv zeta in Hres. destruct Hres as (-> & _ & _ & Hm & _).
  split.
  { cbn [tts_model]. unfold tts_model_spec. rewrite lookup_empty.
    by destruct (data !! "tts_model"). }
  eexists m, _. split; [done|]. split; [exact Hm|]. split.
  - rewrite merge_loop_lookup, override_entries_text_to_speech.
    by destruct (decide (tts_key ≠ tts_key)).
  - intros field key dflt Hin.
    destruct (override_entries_option data ∅ bits (VDict ttsl) field key dflt Hin)
      as [Hne Hlook].
    rewrite merge_loop_lookup, Hlook. unfold requested. rewrite !lookup_empty.
    cbn [from_option id].
    destruct (decide (key ≠ tts_key)); [|done].
    by destruct (is_not_None _).
Qed.

End Configure.

(** * Stored audio files *)

Section Artifacts.
Context (P : platform).
Implicit Types (w : world (fs P)) (data : dict) (rnd : list byte).

(** ** Names *)

Lemma unhex_byte_hex (b : byte) :
  unhex_byte (hex_digit (Byte.to_N b / 16)) (hex_digit (Byte.to_N b mod 16)) = Some b.
Proof. destruct b; vm_compute; reflexivity. Qed.

Lemma hex_suffix_inj (bs1 bs2 : list byte) :
  hex bs1 +:+ ".mp3" = hex bs2 +:+ ".mp3" → bs1 = bs2.
Proof.
  revert bs2. induction bs1 as [|b1 bs1 IH]; intros [|b2 bs2]; cbn [hex String.append].
  - done.
  - intros [= H1 _]. destruct (hex_digits_lower b2) as [Hl _].
    rewrite <- H1 in Hl. discriminate.
  - intros [= H1 _]. destruct (hex_digits_lower b1) as [Hl _].
    rewrite H1 in Hl. discriminate.
  - intros [= H1 H2 Hrest]. f_equal; [|by apply IH].
    pose proof (unhex_byte_hex b1) as Hb1. rewrite H1, H2, unhex_byte_hex in Hb1.
    by injection Hb1.
Qed.

(** X17: the file name determines the random bytes: two requests get
    the same file name only if [os.urandom] gave them the same bytes. *)
Theorem podcast_filename_inj (rnd1 rnd2 : list byte) :
  podcast_filename rnd1 = podcast_filename rnd2 → rnd1 = rnd2.
Proof.
  unfold podcast_filename. cbn [String.append]. intros [= H]. by apply hex_suffix_inj.
Qed.

Lemma ends_with_sep_app (s t : string) :
  t ≠ "" → ends_with_sep (s +:+ t) = ends_with_sep t.
Proof.
  intros Ht. induction s as [|c s IH]; [done|].
  change (String c s +:+ t) with (String c (s +:+ t)). rewrite <- IH.
  destruct (s +:+ t) eqn:Hst; [|reflexivity].
  destruct s; [by destruct Ht | discriminate].
Qed.

Lemma TEMP_DIR_no_sep : TEMP_DIR P ≠ "" ∧ ends_with_sep (TEMP_DIR P) = false.
Proof.
  unfold TEMP_DIR, os_path_join.
  change (String.prefix "/" "temp_audio") with false. cbv iota.
  change ("/" +:+ "temp_audio") with "/temp_audio".
  destruct (_ || _); (split; [|by rewrite ends_with_sep_app]);
    by destruct (module_dir P).
Qed.

(** X18: where the audio file is stored.  Whatever the location of the
    module and the random bytes, the path handed to [shutil.copy2] is
    the generated file name directly under [TEMP_DIR]. *)
Theorem artifact_path rnd :
  os_path_join (TEMP_DIR P) (podcast_filename rnd) =
    TEMP_DIR P +:+ "/" +:+ podcast_filename rnd.
Proof.
  destruct TEMP_DIR_no_sep as [Hne Hsep].
  unfold os_path_join at 1. unfold podcast_filename at 1. cbn [String.append String.prefix].
  rewrite Hsep. destruct (String.eqb (TEMP_DIR P) "") eqn:Heq; [|done].
  by apply String.eqb_eq in Heq.
Qed.

(** ** Retrieval *)

(** X19: a generated file can be retrieved.  On a file system where a
    copy that went through leaves the destination in place, a request
    that returned is answered with the URL of the generated name, and
    [serve_audio] of that name then answers with the stored file as
    [audio/mpeg], leaving the state as it is. *)
Theorem generated_audio_is_served (path_exists : string → fs P → bool)
    data rnd w (body : dict) w' :
  (∀ src dst f f', copy2 P src dst f = (Ok (), f') → path_exists dst f' = true) →
  generate_podcast_endpoint data rnd w = (Ok body, w') →
  body = {[ "audioUrl" := VStr ("/audio/" +:+ podcast_filename rnd) ]} ∧
  serve_audio path_exists (podcast_filename rnd) w' =
    (Ok (FileResponse (os_path_join (TEMP_DIR P) (podcast_filename rnd))
           "audio/mpeg" (podcast_filename rnd)), w').
Proof.
  intros Hlaw Hrun. unfold generate_podcast_endpoint in Hrun.
  destruct (generate_body data rnd w) as [[body0|e] w0] eqn:Hbody; [|discriminate].
  injection Hrun as -> ->. unfold generate_body in Hbody.
  apply bind_ok_inv in Hbody as (args & w1 & _ & Hbody).
  apply bind_ok_inv in Hbody as (result & w2 & _ & Hres).
  assert (∃ src, store_artifact rnd src w2 = (Ok body, w')) as [src Hstore].
  { unfold handle_result in Hres.
    destruct (existing_path result w2); [eauto|].
    destruct (populated_audio_path result w2); [eauto | discriminate]. }
  unfold store_artifact in Hstore.
  destruct (copy2 P src _ (w_files w2)) as [[[]|e] f] eqn:Hcopy; [|discriminate].
  injection Hstore as <- <-. split; [done|].
  unfold serve_audio. cbn [w_files]. by rewrite (Hlaw _ _ _ _ Hcopy).
Qed.

(** X20: [serve_audio] does not confine the lookup to [TEMP_DIR]: for a
    file name that begins with "/", the path looked up and served is the
    file name itself. *)
Theorem serve_audio_absolute_name (path_exists : string → fs P → bool)
    (filename : string) w :
  String.prefix "/" filename = true →
  serve_audio path_exists filename w =
    if path_exists filename (w_files w)
    then (Ok (FileResponse filename "audio/mpeg" filename), w)
    else (Raise (HTTPException 404 "File not found"), w).
Proof.
  intros Habs. unfold serve_audio, os_path_join. rewrite Habs.
  by destruct (path_exists filename (w_files w)).
Qed.

End Artifacts.

(** * The further properties at concrete inputs *)

Section ConcreteMore.
Import Examples MoreExamples.

(** The shape of two concrete configurations whose sub-maps are [bt] and
    [ot]. *)
Ltac concrete_sub_maps bt ot :=
  let b := fresh "b" in let o := fresh "o" in
  let Hb := fresh "Hb" in let Ho := fresh "Ho" in
  intros b o Hb Ho; vm_compute in Hb, Ho;
  first [ discriminate
        | injection Hb as <-; injection Ho as <-;
          exists bt, ot; repeat split; try (vm_compute; eauto; fail); discriminate ].

(** A concrete run gave a result: name the result and the final state. *)
Ltac run_ok t args w1 Hrun :=
  let Hok := fresh "Hok" in
  assert (is_ok t = true) as Hok by (vm_compute; reflexivity);
  destruct t as [[args|?] w1] eqn:Hrun; [clear Hok | discriminate Hok].

Lemma merge_result_entries_witness :
  ∃ m h', merge_configs 1 2 submerge_store = (Ok m, h') ∧ submerge_store !! m = None ∧
          h' !! m = Some (merge_entries {[ tts_key := VDict 3 ]}
                            {[ tts_key := VDict 4; "output_language" := VStr "French" ]}).
Proof.
  apply (merge_result_entries submerge_store 1 2); [reflexivity | reflexivity |].
  concrete_sub_maps 3%positive 4%positive.
Defined.

Lemma merge_keeps_base_on_null_witness :
  ∃ m h', merge_configs 1 2 null_option_store = (Ok m, h') ∧
          deref h' m !! "creativity" = Some (VInt 1) ∧
          deref h' m !! "podcast_name" = Some (VStr "Daily").
Proof.
  destruct (merge_keeps_base_on_null null_option_store 1 2
              {[ tts_key := VDict 3; "creativity" := VInt 1; "podcast_name" := VStr "Daily" ]}
              {[ tts_key := VDict 4; "creativity" := VNone;
                 "output_language" := VStr "French" ]})
    as (m & h' & Hrun & Hkeep); [reflexivity | reflexivity | |].
  - concrete_sub_maps 3%positive 4%positive.
  - exists m, h'. split; [exact Hrun|]. split.
    + rewrite (Hkeep "creativity"); [reflexivity|].
      right. split; [discriminate | reflexivity].
    + rewrite (Hkeep "podcast_name"); [reflexivity|]. left. reflexivity.
Defined.

Lemma merge_keeps_top_level_arguments_witness :
  ∃ m h', merge_configs 1 2 submerge_store = (Ok m, h') ∧
          h' !! 1%positive = Some {[ tts_key := VDict 3 ]} ∧
          h' !! 2%positive = Some {[ tts_key := VDict 4; "output_language" := VStr "French" ]}.
Proof.
  apply (merge_keeps_top_level_arguments submerge_store 1 2);
    [reflexivity | reflexivity | | vm_compute; discriminate].
  concrete_sub_maps 3%positive 4%positive.
Defined.

Lemma merge_configs_skips_text_to_speech_witness :
  ∃ m h', merge_configs 1 2 empty_base_store = (Ok m, h') ∧ deref h' m !! tts_key = None.
Proof.
  apply (merge_configs_skips_text_to_speech empty_base_store 1 2 ∅ {[ tts_key := VDict 3 ]});
    reflexivity.
Defined.

Lemma merge_rejects_scalar_text_to_speech_witness :
  merge_configs 1 2 scalar_tts_store =
    (Raise (AttributeError "'str' object has no attribute 'update'"),
     <[fresh_loc scalar_tts_store := {[ tts_key := VStr "openai" ]}]> scalar_tts_store).
Proof.
  apply (merge_rejects_scalar_text_to_speech scalar_tts_store 1 2
           {[ tts_key := VStr "openai" ]} {[ tts_key := VDict 3 ]} (VStr "openai"));
    [reflexivity | reflexivity | reflexivity | discriminate | vm_compute; eauto].
Defined.

Lemma merge_rejects_non_iterable_override_witness :
  ∃ h', merge_configs 1 5 null_subkey_store =
          (Raise (TypeError "'NoneType' object is not iterable"), h') ∧
        ∀ l d, null_subkey_store !! l = Some d → h' !! l = Some d.
Proof.
  apply (merge_rejects_non_iterable_override null_subkey_store 1 5 3
           {[ tts_key := VDict 3 ]} {[ tts_key := VNone ]} VNone); reflexivity.
Defined.

Lemma merge_twice_witness :
  ∃ m1 h1 m2 h2,
    merge_configs 1 2 submerge_store = (Ok m1, h1) ∧
    merge_configs m1 2 h1 = (Ok m2, h2) ∧
    h2 !! m2 = h1 !! m1 ∧
    ∀ l, is_Some (h1 !! l) → h2 !! l = h1 !! l.
Proof.
  apply (merge_twice submerge_store 1 2 {[ tts_key := VDict 3 ]}
           {[ tts_key := VDict 4; "output_language" := VStr "French" ]});
    [reflexivity | reflexivity |].
  concrete_sub_maps 3%positive 4%positive.
Defined.

Lemma prepare_touches_only_credentials_witness :
  w_environ (prepare (P:=example_platform gen_path) request empty_world).2 !! "PATH"
  = w_environ empty_world !! "PATH".
Proof.
  apply (prepare_touches_only_credentials (example_platform gen_path) request empty_world
           (prepare (P:=example_platform gen_path) request empty_world).1);
    [by destruct (prepare _ _) | discriminate..].
Defined.

Lemma non_string_credential_is_500_witness :
  generate_podcast_endpoint (P:=example_platform gen_path) numeric_key_request rnd8
    empty_world
  = (Raise (HTTPException 500 "str expected, not int"), empty_world).
Proof.
  apply (non_string_credential_is_500 (example_platform gen_path) numeric_key_request
           rnd8 empty_world (VInt 12345)); [reflexivity | reflexivity | discriminate].
Defined.

Lemma credentials_survive_failure_witness :
  let run := generate_podcast_endpoint (P:=example_platform gen_path)
               key_and_bad_creativity_request rnd8 empty_world in
  run.1 = Raise (HTTPException 500 "could not convert string to float: 'high'") ∧
  w_environ run.2 !! "ELEVENLABS_API_KEY" = Some "el-1".
Proof.
  cbv zeta.
  destruct (credentials_survive_failure (example_platform gen_path)
              key_and_bad_creativity_request rnd8 empty_world
              (World ∅ {[ "ELEVENLABS_API_KEY" := "el-1" ]} ∅)
              (ValueError "could not convert string to float: 'high'")
              (configure (P:=example_platform gen_path) key_and_bad_creativity_request
                 (World ∅ {[ "ELEVENLABS_API_KEY" := "el-1" ]} ∅)).2
              "el-1") as (Hrun & _ & Hvar).
  - reflexivity.
  - discriminate.
  - vm_compute. reflexivity.
  - vm_compute. reflexivity.
  - rewrite Hrun. split; [reflexivity | exact Hvar].
Defined.

Lemma non_mapping_config_is_500_witness :
  generate_podcast_endpoint (P:=empty_document_platform) request rnd8 empty_world
  = (Raise (HTTPException 500 "'NoneType' object has no attribute 'get'"),
     World ∅ {[ "OPENAI_API_KEY" := "sk-1" ]} ∅).
Proof.
  assert (set_credentials (P:=empty_document_platform) request empty_world
          = (Ok (), World ∅ {[ "OPENAI_API_KEY" := "sk-1" ]} ∅)) as Hcred
    by (vm_compute; reflexivity).
  assert (∀ l, VNone ≠ VDict l) as Hnd by discriminate.
  exact (non_mapping_config_is_500 empty_document_platform request rnd8 empty_world
           (World ∅ {[ "OPENAI_API_KEY" := "sk-1" ]} ∅) VNone ∅ Hcred eq_refl Hnd).
Defined.

Lemma generator_arguments_witness :
  ∃ args w1,
    prepare (P:=example_platform gen_path) request empty_world = (Ok args, w1) ∧
    urls args = VList [VStr "http://example.com"] ∧ longform args = false.
Proof.
  run_ok (prepare (P:=example_platform gen_path) request empty_world) args w1 Hprep.
  exists args, w1. split; [reflexivity|].
  destruct (generator_arguments (example_platform gen_path) request empty_world args w1 Hprep)
    as (Hurls & Hlong & _).
  split; [exact Hurls | exact Hlong].
Defined.

Lemma effective_options_witness :
  ∃ args w1 m md,
    configure (P:=example_platform gen_path) language_request configured_world
      = (Ok args, w1) ∧
    conversation_config args = VDict m ∧ w_heap w1 !! m = Some md ∧
    md !! "output_language" = Some (VStr "French") ∧
    md !! "podcast_tagline" = None ∧
    md !! "user_instructions" = Some (VStr "").
Proof.
  run_ok (configure (P:=example_platform gen_path) language_request configured_world)
    args w1 Hrun.
  destruct (effective_options (example_platform gen_path) language_request configured_world
              4 (load_base_config (P:=example_platform gen_path) configured_world).2
              loaded_base args w1) as (m & md & Hcfg & Hm & Hopt & _).
  - vm_compute. reflexivity.
  - vm_compute. reflexivity.
  - intros t Ht. vm_compute in Ht. injection Ht as <-. vm_compute. eauto.
  - exact Hrun.
  - exists args, w1, m, md. split; [reflexivity|]. split; [exact Hcfg|]. split; [exact Hm|].
    split; [|split].
    + rewrite (Hopt "output_language" "output_language" (VStr "English")); [vm_compute; reflexivity|].
      apply (list_elem_of_lookup_2 _ 6%nat). reflexivity.
    + rewrite (Hopt "tagline" "podcast_tagline" VNone); [vm_compute; reflexivity|].
      apply (list_elem_of_lookup_2 _ 5%nat). reflexivity.
    + rewrite (Hopt "user_instructions" "user_instructions" (VStr "")); [vm_compute; reflexivity|].
      apply (list_elem_of_lookup_2 _ 7%nat). reflexivity.
Defined.


Lemma effective_text_to_speech_witness :
  let w1 := (configure (P:=example_platform gen_path) language_request configured_world).2 in
  ∃ m md btd',
    w_heap w1 !! m = Some md ∧ md !! tts_key = Some (VDict 3) ∧
    w_heap w1 !! 3%positive = Some btd' ∧
    btd' !! "default_tts_model" = Some (VStr "openai") ∧
    btd' !! "model" = Some (VStr "tts-1-hd") ∧
    btd' !! "openai" = Some (VDict 2).
Proof.
  cbv zeta.
  destruct (effective_text_to_speech (example_platform gen_path) language_request
              configured_world 4 3
              (load_base_config (P:=example_platform gen_path) configured_world).2
              loaded_base loaded_text_to_speech
              (GenArgs (VList []) (VDict 13) (VStr "openai") false)
              (configure (P:=example_platform gen_path) language_request configured_world).2)
    as (m & md & btd' & _ & Hm & Htts & Hbt & Hdefault & Hmodel & Hrest).
  - vm_compute. reflexivity.
  - vm_compute. reflexivity.
  - vm_compute. reflexivity.
  - vm_compute. reflexivity.
  - vm_compute. reflexivity.
  - exists m, md, btd'. split; [exact Hm|]. split; [exact Htts|]. split; [exact Hbt|].
    split; [exact Hdefault|]. split.
    + rewrite Hmodel. vm_compute. reflexivity.
    + rewrite (Hrest "openai"); [vm_compute; reflexivity | discriminate..].
Defined.

Lemma effective_voices_witness :
  let w1 := (configure (P:=example_platform gen_path) language_request configured_world).2 in
  ∃ btd' dvl,
    w_heap w1 !! 3%positive = Some btd' ∧ btd' !! "default_voices" = Some (VDict dvl) ∧
    w_heap w1 !! dvl = Some {[ "question" := VStr "echo"; "answer" := VStr "shimmer" ]}.
Proof.
  cbv zeta.
  destruct (effective_voices (example_platform gen_path) language_request
              configured_world 4 3
              (load_base_config (P:=example_platform gen_path) configured_world).2
              loaded_base loaded_text_to_speech
              (GenArgs (VList []) (VDict 13) (VStr "openai") false)
              (configure (P:=example_platform gen_path) language_request configured_world).2)
    as (btd' & dvl & Hbt & Hdv & _ & Hnew).
  - vm_compute. reflexivity.
  - vm_compute. reflexivity.
  - vm_compute. reflexivity.
  - vm_compute. reflexivity.
  - vm_compute. reflexivity.
  - exists btd', dvl. split; [exact Hbt|]. split; [exact Hdv|].
    rewrite Hnew. vm_compute. reflexivity.
Defined.

Lemma configuration_without_base_witness :
  ∃ args w1 m md,
    configure (P:=example_platform gen_path) language_request empty_world = (Ok args, w1) ∧
    tts_model args = VStr "openai" ∧
    conversation_config args = VDict m ∧ w_heap w1 !! m = Some md ∧
    md !! tts_key = None ∧
    md !! "output_language" = Some (VStr "French") ∧
    md !! "podcast_tagline" = None ∧
    md !! "conversation_style" = Some (VList []).
Proof.
  run_ok (configure (P:=example_platform gen_path) language_request empty_world) args w1 Hrun.
  destruct (configuration_without_base (example_platform gen_path) language_request
              empty_world
              (OtherError "FileNotFoundError"
                 "[Errno 2] No such file or directory: 'podcastfy/conversation_config.yaml'")
              ∅ args w1) as (Hmodel & m & md & Hcfg & Hm & Htts & Hopt).
  - reflexivity.
  - exact Hrun.
  - exists args, w1, m, md. split; [reflexivity|]. split; [exact Hmodel|].
    split; [exact Hcfg|]. split; [exact Hm|]. split; [exact Htts|].
    split; [|split].
    + rewrite (Hopt "output_language" "output_language" (VStr "English"));
        [vm_compute; reflexivity|].
      apply (list_elem_of_lookup_2 _ 6%nat). reflexivity.
    + rewrite (Hopt "tagline" "podcast_tagline" VNone); [vm_compute; reflexivity|].
      apply (list_elem_of_lookup_2 _ 5%nat). reflexivity.
    + rewrite (Hopt "conversation_style" "conversation_style" (VList []));
        [vm_compute; reflexivity|].
      apply (list_elem_of_lookup_2 _ 0%nat). reflexivity.
Defined.

Lemma podcast_filename_inj_witness :
  podcast_filename [x00; x01; x7f; x80; xab; xcd; xef; xff] = podcast_filename rnd8 ∧
  [x00; x01; x7f; x80; xab; xcd; xef; xff] = rnd8.
Proof.
  split; [reflexivity|]. apply podcast_filename_inj. reflexivity.
Defined.

Lemma generated_audio_is_served_witness :
  let w' := (generate_podcast_endpoint (P:=example_platform gen_path) request rnd8
               empty_world).2 in
  serve_audio (P:=example_platform gen_path) files_isfile
    "podcast_00017f80abcdefff.mp3" w'
  = (Ok (FileResponse "/app/temp_audio/podcast_00017f80abcdefff.mp3" "audio/mpeg"
           "podcast_00017f80abcdefff.mp3"), w').
Proof.
  cbv zeta.
  assert (∀ src dst (f f' : files),
            files_copy2 src dst f = (Ok (), f') → files_isfile dst f' = true) as Hlaw.
  { intros src dst f f'. unfold files_copy2, files_isfile.
    destruct src; try discriminate. destruct (f !! _); [|discriminate].
    intros [= <-]. apply bool_decide_eq_true_2. rewrite lookup_insert_eq. eauto. }
  assert (generate_podcast_endpoint (P:=example_platform gen_path) request rnd8 empty_world
          = (Ok {[ "audioUrl" := VStr "/audio/podcast_00017f80abcdefff.mp3" ]},
             (generate_podcast_endpoint (P:=example_platform gen_path) request rnd8
                empty_world).2)) as Hrun
    by (vm_compute; reflexivity).
  exact (proj2 (generated_audio_is_served (example_platform gen_path) files_isfile request
                  rnd8 empty_world _ _ Hlaw Hrun)).
Defined.

Lemma serve_audio_absolute_name_witness :
  serve_audio (P:=example_platform gen_path) files_isfile "/etc/passwd" passwd_world
  = (Ok (FileResponse "/etc/passwd" "audio/mpeg" "/etc/passwd"), passwd_world).
Proof.
  exact (serve_audio_absolute_name (example_platform gen_path) files_isfile "/etc/passwd"
           passwd_world eq_refl).
Defined.

End ConcreteMore.
